(** * Codex test orchestrator: dependency expansion and tier execution

    A shallow embedding of [scripts/codex_runner.py] and the proofs of the
    properties its specification states about it.

    The configuration is the data [yaml.safe_load] / [json.loads] hands to the
    script: nested mappings, lists and scalars.  Mappings are keyed by strings
    and numbers are integers; a mapping is kept as an association list in
    insertion order, which is also the order Python iterates it in. *)

From stdpp Require Import base strings list numbers relations.

Set Warnings "-register-all,-clear-no-such-hyp".

Open Scope Z_scope.
Open Scope string_scope.
Open Scope list_scope.

(** ** Configuration values *)

Inductive value : Type :=
| VNone
| VBool (b : bool)
| VInt (n : Z)
| VStr (s : string)
| VList (xs : list value)
| VDict (items : list (string * value)).

(** Python truthiness, as used by [if not meta] and [if markers_any]. *)
Definition truthy (v : value) : bool :=
  match v with
  | VNone => false
  | VBool b => b
  | VInt n => negb (Z.eqb n 0)
  | VStr EmptyString => false
  | VList [] => false
  | VDict [] => false
  | _ => true
  end.

(** ** Failures

    [sys.exit(1)] after a [[Codex]] message on stderr is the configuration
    error of the specification; the message says which one.  Every other
    exception of the script is uncaught: the interpreter prints a traceback
    and the process ends with status 1. *)

Inductive config_message :=
| MissingConfig
| NotValidJson
| UnknownCombination (combo : string)
| TierNotDefined (tier : value).

Inductive failure :=
| ConfigError (msg : config_message)
| RecursionError
| Uncaught.

Inductive result (A : Type) : Type :=
| Ok (a : A)
| Raise (e : failure).
Arguments Ok {A} a.
Arguments Raise {A} e.

Definition bind {A B} (m : result A) (k : A → result B) : result B :=
  match m with
  | Ok a => k a
  | Raise e => Raise e
  end.

Notation "'let*' x ':=' m 'in' k" := (bind m (fun x => k))
  (at level 10, x name, m at level 100, k at level 200).

(** [for x in xs: body(x)] over a state the body updates. *)
Fixpoint for_each {A S} (body : A → S → result S) (xs : list A) (s : S) : result S :=
  match xs with
  | [] => Ok s
  | x :: xs' =>
      match body x s with
      | Ok s' => for_each body xs' s'
      | Raise e => Raise e
      end
  end.

(** ** The Python operations the script applies to configuration values *)

Fixpoint assoc (k : string) (items : list (string * value)) : option value :=
  match items with
  | [] => None
  | (k', v) :: items' => if bool_decide (k = k') then Some v else assoc k items'
  end.

(** [d.get(k, default)]: only a mapping has [get] (AttributeError). *)
Definition dict_get (d : value) (k : string) (default : value) : result value :=
  match d with
  | VDict items =>
      match assoc k items with
      | Some v => Ok v
      | None => Ok default
      end
  | _ => Raise Uncaught
  end.

(** [d.get(k)] for an arbitrary key [k]: the keys of a mapping are strings,
    so any other hashable key is absent; a list or a mapping is unhashable
    (TypeError). *)
Definition dict_get_any (d : value) (k : value) : result value :=
  match d with
  | VDict items =>
      match k with
      | VStr s => dict_get d s VNone
      | VList _ | VDict _ => Raise Uncaught
      | _ => Ok VNone
      end
  | _ => Raise Uncaught
  end.

(** [d[k]]: KeyError when [k] is missing, TypeError when [d] is no mapping. *)
Definition dict_item (d : value) (k : string) : result value :=
  match d with
  | VDict items =>
      match assoc k items with
      | Some v => Ok v
      | None => Raise Uncaught
      end
  | _ => Raise Uncaught
  end.

(** [k in d] for a mapping [d]. *)
Definition has_key (k : string) (items : list (string * value)) : bool :=
  bool_decide (k ∈ items.*1).

Fixpoint chars (s : string) : list value :=
  match s with
  | EmptyString => []
  | String c s' => VStr (String c EmptyString) :: chars s'
  end.

(** [for x in v]: a list yields its elements, a string its characters, a
    mapping its keys; nothing else is iterable (TypeError). *)
Definition py_iter (v : value) : result (list value) :=
  match v with
  | VList xs => Ok xs
  | VStr s => Ok (chars s)
  | VDict items => Ok (VStr <$> items.*1)
  | _ => Raise Uncaught
  end.

(** ** Dependency expansion *)

(** [add_tier], the closure of [expand_dependencies] over [test_tiers] and the
    list [ordered] it appends to.  [depth] is the number of nested [add_tier]
    frames the interpreter still allows: at 0 the call raises RecursionError.
    [ordered] only ever holds strings, so a [tier] that is no string is never
    found in it. *)
Fixpoint add_tier (test_tiers : value) (depth : nat) (tier : value)
    (ordered : list string) : result (list string) :=
  match depth with
  | O => Raise RecursionError
  | S depth' =>
      match tier with
      | VStr name =>
          if bool_decide (name ∈ ordered) then Ok ordered
          else
            let* meta := dict_get test_tiers name VNone in
            if negb (truthy meta) then Raise (ConfigError (TierNotDefined tier))
            else
              let* depends_on := dict_get meta "depends_on" (VList []) in
              let* deps := py_iter depends_on in
              let* ordered' := for_each (add_tier test_tiers depth') deps ordered in
              Ok (ordered' ++ [name])
      | _ =>
          let* meta := dict_get_any test_tiers tier in
          Raise (ConfigError (TierNotDefined tier))
      end
  end.

Definition expand_dependencies (depth : nat) (cfg : value) (tiers : value)
    : result (list string) :=
  let* test_tiers := dict_get cfg "test_tiers" (VDict []) in
  let* ts := py_iter tiers in
  for_each (add_tier test_tiers depth) ts [].

(** ** Tier execution *)

(** [cmd + paths]: only a list can be appended to a list (TypeError). *)
Definition list_add (xs : list value) (v : value) : result (list value) :=
  match v with
  | VList ys => Ok (xs ++ ys)
  | _ => Raise Uncaught
  end.

(** The items of [sep.join(xs)] have to be strings (TypeError). *)
Fixpoint strings_of (xs : list value) : result (list string) :=
  match xs with
  | [] => Ok []
  | VStr s :: xs' => let* ss := strings_of xs' in Ok (s :: ss)
  | _ :: _ => Raise Uncaught
  end.

Definition str_join (sep : string) (v : value) : result string :=
  let* xs := py_iter v in
  let* ss := strings_of xs in
  Ok (String.concat sep ss).

(** What [subprocess.run(cmd, check=False, env=env)] can do: return a
    completed process with its return code, be interrupted by the user while
    it waits, or fail to start the program (OSError). *)
Inductive outcome :=
| Returned (returncode : Z)
| KeyboardInterrupt
| LaunchError.

(** What the executor did with a tier of the plan: skipped it, called
    [subprocess.run] for it, or raised while it built the command. *)
Inductive event :=
| Skipped (tier : string)
| Invoked (tier : string) (cmd : list string) (o : outcome)
| NotLaunched (tier : string).

Inductive config_file :=
| NoFile
| File (yaml_doc json_doc : option value).

Section Executor.

(** The interpreter and the operating system around the script:
    [sys.executable], whether PyYAML can be imported, and the state of the
    world the child processes run in (it includes the environment
    [run_tier] passes on). *)
Variable sys_executable : string.
Variable yaml_installed : bool.
Variable World : Type.
Variable subprocess_run : list string → World → outcome * World.

Definition load_codex_config (config : config_file) : result value :=
  match config with
  | NoFile => Raise (ConfigError MissingConfig)
  | File yaml_doc json_doc =>
      if yaml_installed then
        match yaml_doc with
        | Some cfg => Ok cfg
        | None => Raise Uncaught
        end
      else
        match json_doc with
        | Some cfg => Ok cfg
        | None => Raise (ConfigError NotValidJson)
        end
  end.

(** When [combos] is no mapping, [combo not in combos] or one of
    [combos.keys()] and [combos[combo]] raises. *)
Definition collect_tiers_for_combo (cfg : value) (combo : string) : result value :=
  let* combos := dict_get cfg "combinations" (VDict []) in
  match combos with
  | VDict items =>
      if negb (has_key combo items) then
        Raise (ConfigError (UnknownCombination combo))
      else
        let* entry := dict_item combos combo in
        dict_item entry "tiers"
  | _ => Raise Uncaught
  end.

Definition build_pytest_cmd (tier_name : string) (tier_cfg : value)
    : result (list value) :=
  let* discovery := dict_item tier_cfg "discovery" in
  let* paths := dict_get discovery "paths" (VList [VStr "tests"]) in
  let* markers_any := dict_get discovery "markers_any" (VList []) in
  let* cmd := list_add [VStr sys_executable; VStr "-m"; VStr "pytest"] paths in
  if truthy markers_any then
    let* marker_expr := str_join " or " markers_any in
    Ok (cmd ++ [VStr "-m"; VStr marker_expr])
  else Ok cmd.

(** [run_tier]: the command is built and printed (joined with spaces)
    before the [try]; only KeyboardInterrupt is caught. *)
Definition run_tier (tier_name : string) (tier_cfg : value) (w : World)
    : result bool * list event * World :=
  match (let* cmd := build_pytest_cmd tier_name tier_cfg in strings_of cmd) with
  | Raise e => (Raise e, [NotLaunched tier_name], w)
  | Ok cmd =>
      let '(o, w') := subprocess_run cmd w in
      match o with
      | Returned returncode =>
          (Ok (Z.eqb returncode 0), [Invoked tier_name cmd o], w')
      | KeyboardInterrupt => (Ok false, [Invoked tier_name cmd o], w')
      | LaunchError => (Raise Uncaught, [Invoked tier_name cmd o], w')
      end
  end.

(** The [for tier_name in tiers_to_run] loop of [main], from the value
    [overall_ok] has when an iteration starts. *)
Fixpoint tier_loop (test_tiers : value) (tiers_to_run : list string)
    (overall_ok : bool) (w : World) : result bool * list event * World :=
  match tiers_to_run with
  | [] => (Ok overall_ok, [], w)
  | tier_name :: rest =>
      match dict_item test_tiers tier_name with
      | Raise e => (Raise e, [], w)
      | Ok tier_cfg =>
          match dict_get tier_cfg "default_enabled" (VBool true) with
          | Raise e => (Raise e, [], w)
          | Ok enabled =>
              if negb (truthy enabled) then
                let '(r, evs, w') := tier_loop test_tiers rest overall_ok w in
                (r, Skipped tier_name :: evs, w')
              else
                match run_tier tier_name tier_cfg w with
                | (Raise e, evs, w1) => (Raise e, evs, w1)
                | (Ok true, evs, w1) =>
                    let '(r, evs', w') := tier_loop test_tiers rest overall_ok w1 in
                    (r, evs ++ evs', w')
                | (Ok false, evs, w1) =>
                    match dict_get tier_cfg "critical" (VBool false) with
                    | Raise e => (Raise e, evs, w1)
                    | Ok critical =>
                        if truthy critical then (Ok false, evs, w1)
                        else
                          let '(r, evs', w') := tier_loop test_tiers rest false w1 in
                          (r, evs ++ evs', w')
                    end
                end
          end
      end
  end.

(** Lines 119-126 of [main]: everything that happens before the first tier
    is looked at. *)
Definition resolve_plan (config : config_file) (combo : string) (depth : nat)
    : result (value * list string) :=
  let* cfg := load_codex_config config in
  let* requested_tiers := collect_tiers_for_combo cfg combo in
  let* tiers_to_run := expand_dependencies depth cfg requested_tiers in
  let* test_tiers := dict_get cfg "test_tiers" (VDict []) in
  Ok (test_tiers, tiers_to_run).

(** [main], from the parsed command line ([--config] names [config],
    [--combo] is [combo]) to the exit status of the process.  What [argparse]
    does with a command line it does not accept happens before this and is
    left out. *)
Definition main (config : config_file) (combo : string) (depth : nat) (w : World)
    : Z * list event * World :=
  match resolve_plan config combo depth with
  | Raise e => (1, [], w)
  | Ok (test_tiers, tiers_to_run) =>
      match tier_loop test_tiers tiers_to_run true w with
      | (Ok overall_ok, evs, w') => (if overall_ok then 0 else 1, evs, w')
      | (Raise e, evs, w') => (1, evs, w')
      end
  end.

End Executor.

(** ** The dependency graph of a tier map *)

(** What the loop of [add_tier] iterates over for a tier that is not yet in
    [ordered]: the failure of the lookup, or the listed dependencies. *)
Definition tier_deps (test_tiers : value) (tier : value) : result (list value) :=
  match tier with
  | VStr name =>
      let* meta := dict_get test_tiers name VNone in
      if negb (truthy meta) then Raise (ConfigError (TierNotDefined tier))
      else
        let* depends_on := dict_get meta "depends_on" (VList []) in
        py_iter depends_on
  | _ =>
      let* meta := dict_get_any test_tiers tier in
      Raise (ConfigError (TierNotDefined tier))
  end.

Definition tier_keys (test_tiers : value) : list string :=
  match test_tiers with
  | VDict items => items.*1
  | _ => []
  end.

Section Graph.

Variable test_tiers : value.

(** A tier is defined when [add_tier] gets past its lookup. *)
Definition defined (tier : value) : Prop :=
  ∃ deps, tier_deps test_tiers tier = Ok deps.

Definition depends (tier dep : value) : Prop :=
  ∃ deps, tier_deps test_tiers tier = Ok deps ∧ dep ∈ deps.

(** The requested tiers and their transitive dependencies. *)
Definition reachable (tiers : list value) (x : value) : Prop :=
  ∃ t, t ∈ tiers ∧ rtc depends t x.

Definition on_cycle (x : value) : Prop := tc depends x x.

Definition acyclic_from (tiers : list value) : Prop :=
  ∀ x, reachable tiers x → ¬ on_cycle x.

(** A walk along dependencies, with the names of the tiers it leaves. *)
Inductive chain : value → list string → value → Prop :=
| chain_nil v : chain v [] v
| chain_cons s names d v :
    depends (VStr s) d → chain d names v → chain (VStr s) (s :: names) v.

(** The invariant of [ordered]: it grows by one defined tier at a time,
    never one it already holds, and only after all its dependencies. *)
Inductive ordered_ok : list string → Prop :=
| ordered_ok_nil : ordered_ok []
| ordered_ok_snoc l x deps :
    ordered_ok l →
    x ∉ l →
    tier_deps test_tiers (VStr x) = Ok deps →
    (∀ d, d ∈ deps → ∃ s, d = VStr s ∧ s ∈ l) →
    ordered_ok (l ++ [x]).

(** What a returning call [add_tier(tier)] does to [ordered]: nothing when
    the tier is there already, and otherwise the tier is appended last. *)
Definition added (ordered : list string) (tier : value) (ordered' : list string) : Prop :=
  ∃ s, tier = VStr s ∧
    ((s ∈ ordered ∧ ordered' = ordered) ∨
     ((s ∉ ordered) ∧ ∃ l, ordered' = l ++ [s] ∧ ordered `prefix_of` l)).

(** The call [add_tier(s)] has got to its dependency [t]: [s] is not in
    [ordered] yet, and the dependencies of [s] listed before [t] are. *)
Definition open_edge (ordered : list string) (s : string) (t : value) : Prop :=
  (s ∉ ordered) ∧
  ∃ pre post, tier_deps test_tiers (VStr s) = Ok (pre ++ t :: post) ∧
              ∀ p, p ∈ pre → ∃ q, p = VStr q ∧ q ∈ ordered.

(** The calls of [add_tier] that are under way when [add_tier(t)] is called,
    the innermost first. *)
Fixpoint stack_ok (ordered : list string) (stack : list string) (t : value) : Prop :=
  match stack with
  | [] => True
  | s :: stack' => open_edge ordered s t ∧ stack_ok ordered stack' (VStr s)
  end.

End Graph.

(** A plan has no tier twice, holds the requested tiers and all their
    transitive dependencies and nothing else, and lists every tier after
    the tiers it depends on. *)
Definition plan_for (test_tiers : value) (ts : list value) (plan : list string) : Prop :=
  NoDup plan ∧
  (∀ x, reachable test_tiers ts x → ∃ s, x = VStr s ∧ s ∈ plan) ∧
  (∀ s, s ∈ plan → reachable test_tiers ts (VStr s)) ∧
  (∀ i T deps d, plan !! i = Some T → tier_deps test_tiers (VStr T) = Ok deps →
     d ∈ deps → ∃ s j, d = VStr s ∧ (j < i)%nat ∧ plan !! j = Some s).

(** ** Runs of the tier loop *)

(** A flag of a tier, read the way [main] reads it: the truth value of
    [test_tiers[name].get(key, default)]. *)
Definition tier_flag (test_tiers : value) (name key : string) (default : bool)
    : result bool :=
  let* tier_cfg := dict_item test_tiers name in
  let* v := dict_get tier_cfg key (VBool default) in
  Ok (truthy v).

(** What [run_tier] returns for an outcome of [subprocess.run]. *)
Definition success_of (o : outcome) : result bool :=
  match o with
  | Returned returncode => Ok (Z.eqb returncode 0)
  | KeyboardInterrupt => Ok false
  | LaunchError => Raise Uncaught
  end.

Definition event_tier (e : event) : string :=
  match e with
  | Skipped tier | Invoked tier _ _ | NotLaunched tier => tier
  end.

Definition is_skipped (e : event) : bool :=
  match e with
  | Skipped _ => true
  | _ => false
  end.

(** The tiers the executor ran, skips excluded. *)
Definition executed (log : list event) : list event :=
  filter (λ e, is_skipped e = false) log.

(** A tier's execution succeeds exactly when its invocation exits with 0. *)
Definition succeeded (e : event) : Prop :=
  ∃ tier cmd, e = Invoked tier cmd (Returned 0).

(** The external command of a tier was invoked. *)
Definition invoked (tier : string) (log : list event) : Prop :=
  ∃ cmd o, Invoked tier cmd o ∈ log.

(** The command [run_tier] builds and prints for a tier of the plan. *)
Definition tier_command (sys_executable : string) (test_tiers : value) (name : string)
    : result (list string) :=
  let* tier_cfg := dict_item test_tiers name in
  let* cmd := build_pytest_cmd sys_executable name tier_cfg in
  strings_of cmd.

(** The shape of a run of the loop over a plan, from the value the flag
    [overall_ok] starts with: the events it leaves and how it ends. *)
Inductive loop_run (sys_executable : string) (test_tiers : value) :
    list string → bool → list event → result bool → Prop :=
| loop_done ok : loop_run sys_executable test_tiers [] ok [] (Ok ok)
| loop_lookup t rest ok e :
    tier_flag test_tiers t "default_enabled" true = Raise e →
    loop_run sys_executable test_tiers (t :: rest) ok [] (Raise e)
| loop_skip t rest ok evs r :
    tier_flag test_tiers t "default_enabled" true = Ok false →
    loop_run sys_executable test_tiers rest ok evs r →
    loop_run sys_executable test_tiers (t :: rest) ok (Skipped t :: evs) r
| loop_build t rest ok e :
    tier_flag test_tiers t "default_enabled" true = Ok true →
    tier_command sys_executable test_tiers t = Raise e →
    loop_run sys_executable test_tiers (t :: rest) ok [NotLaunched t] (Raise e)
| loop_launch t rest ok cmd o e :
    tier_flag test_tiers t "default_enabled" true = Ok true →
    tier_command sys_executable test_tiers t = Ok cmd →
    success_of o = Raise e →
    loop_run sys_executable test_tiers (t :: rest) ok [Invoked t cmd o] (Raise e)
| loop_pass t rest ok cmd o evs r :
    tier_flag test_tiers t "default_enabled" true = Ok true →
    tier_command sys_executable test_tiers t = Ok cmd →
    success_of o = Ok true →
    loop_run sys_executable test_tiers rest ok evs r →
    loop_run sys_executable test_tiers (t :: rest) ok (Invoked t cmd o :: evs) r
| loop_fail t rest ok cmd o evs r :
    tier_flag test_tiers t "default_enabled" true = Ok true →
    tier_command sys_executable test_tiers t = Ok cmd →
    success_of o = Ok false →
    tier_flag test_tiers t "critical" false = Ok false →
    loop_run sys_executable test_tiers rest false evs r →
    loop_run sys_executable test_tiers (t :: rest) ok (Invoked t cmd o :: evs) r
| loop_stop t rest ok cmd o :
    tier_flag test_tiers t "default_enabled" true = Ok true →
    tier_command sys_executable test_tiers t = Ok cmd →
    success_of o = Ok false →
    tier_flag test_tiers t "critical" false = Ok true →
    loop_run sys_executable test_tiers (t :: rest) ok [Invoked t cmd o] (Ok false).

(** The loop got to the tier [c] and left the event [e] for it: it skipped
    the tier when it is not enabled, and otherwise called [run_tier], which
    invokes the command of the tier when that can be built. *)
Definition processed (sys_executable : string) (test_tiers : value)
    (c : string) (e : event) : Prop :=
  event_tier e = c ∧
  (tier_flag test_tiers c "default_enabled" true = Ok false → e = Skipped c) ∧
  (tier_flag test_tiers c "default_enabled" true = Ok true →
     is_skipped e = false ∧
     ∀ cmd, tier_command sys_executable test_tiers c = Ok cmd →
       ∃ o, e = Invoked c cmd o).

(** The exit status [main] ends with after the loop. *)
Definition exit_status (r : result bool) : Z :=
  match r with
  | Ok true => 0
  | _ => 1
  end.

(** ** Request lists without duplicates, tier maps without a key *)

(** The request list with its duplicates removed: every name is kept where
    it comes first.  [seen] holds the names met so far. *)
Fixpoint dedup_from (seen names : list string) : list string :=
  match names with
  | [] => []
  | x :: names' =>
      if bool_decide (x ∈ seen) then dedup_from seen names'
      else x :: dedup_from (x :: seen) names'
  end.

Definition remove_duplicates (names : list string) : list string :=
  dedup_from [] names.

(** The mapping without the key [k]. *)
Definition remove_key (k : string) (items : list (string * value))
    : list (string * value) :=
  filter (λ kv, kv.1 ≠ k) items.

(** ** Logs and worlds *)

(** The characters of a string, as [for c in s] yields them. *)
Fixpoint letters (s : string) : list string :=
  match s with
  | EmptyString => []
  | String c s' => String c EmptyString :: letters s'
  end.

(** The world [w'] is what becomes of the world [w] when the invocations of
    a log are made one after the other, each with the outcome the log
    records, and nothing else is run. *)
Inductive replays {World : Type}
    (subprocess_run : list string → World → outcome * World) :
    list event → World → World → Prop :=
| replays_nil w : replays subprocess_run [] w w
| replays_skipped t log w w' :
    replays subprocess_run log w w' →
    replays subprocess_run (Skipped t :: log) w w'
| replays_not_launched t log w w' :
    replays subprocess_run log w w' →
    replays subprocess_run (NotLaunched t :: log) w w'
| replays_invoked t cmd o log w w1 w' :
    subprocess_run cmd w = (o, w1) →
    replays subprocess_run log w1 w' →
    replays subprocess_run (Invoked t cmd o :: log) w w'.

(** What an event says about its tier: a skipped tier is not enabled; an
    invoked tier is enabled and was invoked with the command built for it; a
    tier that was not launched is enabled and its command cannot be built. *)
Definition event_sound (sys_executable : string) (test_tiers : value) (e : event)
    : Prop :=
  match e with
  | Skipped t => tier_flag test_tiers t "default_enabled" true = Ok false
  | Invoked t cmd _ =>
      tier_flag test_tiers t "default_enabled" true = Ok true ∧
      tier_command sys_executable test_tiers t = Ok cmd
  | NotLaunched t =>
      tier_flag test_tiers t "default_enabled" true = Ok true ∧
      ∃ x, tier_command sys_executable test_tiers t = Raise x
  end.

(** ** Example configurations *)

Definition tests_discovery : value :=
  VDict [("paths", VList [VStr "tests"])].

(** [unit], then [integration] (critical), then [scenario]. *)
Definition chain_tiers : value :=
  VDict [
    ("unit", VDict [("discovery", tests_discovery)]);
    ("integration",
       VDict [("depends_on", VList [VStr "unit"]);
              ("critical", VBool true);
              ("discovery",
                 VDict [("markers_any", VList [VStr "integration"; VStr "scenario"])])]);
    ("scenario",
       VDict [("depends_on", VList [VStr "unit"; VStr "integration"]);
              ("discovery", tests_discovery)])].

Definition chain_cfg : value :=
  VDict [
    ("test_tiers", chain_tiers);
    ("combinations",
       VDict [("smoke", VDict [("tiers", VList [VStr "unit"])]);
              ("full", VDict [("tiers", VList [VStr "scenario"; VStr "unit"])])])].

(** [lint], then [unit] (not critical), then the disabled [stress]. *)
Definition soft_tiers : value :=
  VDict [
    ("lint", VDict [("discovery", tests_discovery)]);
    ("unit", VDict [("depends_on", VList [VStr "lint"]);
                    ("discovery", tests_discovery)]);
    ("stress", VDict [("depends_on", VList [VStr "unit"]);
                      ("default_enabled", VBool false);
                      ("discovery", tests_discovery)])].

Definition soft_cfg : value :=
  VDict [
    ("test_tiers", soft_tiers);
    ("combinations", VDict [("nightly", VDict [("tiers", VList [VStr "stress"])])])].



(** [a] depends on itself and then on a tier that is not defined. *)
Definition cycle_first_tiers : value :=
  VDict [("a", VDict [("depends_on", VList [VStr "a"; VStr "ghost"])])].

Definition cycle_first_cfg : value :=
  VDict [("test_tiers", cycle_first_tiers)].

(** [a] depends on a tier that is not defined and then on itself. *)
Definition ghost_first_tiers : value :=
  VDict [("a", VDict [("depends_on", VList [VStr "ghost"; VStr "a"])])].

Definition ghost_first_cfg : value :=
  VDict [("test_tiers", ghost_first_tiers)].

(** [a] and [b] depend on each other. *)
Definition loop_tiers : value :=
  VDict [("a", VDict [("depends_on", VList [VStr "b"])]);
         ("b", VDict [("depends_on", VList [VStr "a"])])].

Definition loop_cfg : value :=
  VDict [("test_tiers", loop_tiers)].

(** [unit] depends on a tier that is not defined. *)
Definition ghost_tiers : value :=
  VDict [("unit", VDict [("depends_on", VList [VStr "ghost"]);
                         ("discovery", tests_discovery)])].

Definition ghost_cfg : value :=
  VDict [
    ("test_tiers", ghost_tiers);
    ("combinations", VDict [("smoke", VDict [("tiers", VList [VStr "unit"])])])].

(** The combination [pair] asks for [unit], which depends on [lint]. *)
Definition pair_cfg : value :=
  VDict [
    ("test_tiers", soft_tiers);
    ("combinations", VDict [("pair", VDict [("tiers", VList [VStr "unit"])])])].

(** [a] and [b] both depend on [c]. *)
Definition diamond_tiers : value :=
  VDict [("a", VDict [("depends_on", VList [VStr "c"])]);
         ("b", VDict [("depends_on", VList [VStr "c"])]);
         ("c", VDict [("discovery", tests_discovery)])].

Definition diamond_cfg : value :=
  VDict [("test_tiers", diamond_tiers)].

(** [empty] is a key with an empty mapping, [null] a key without a value. *)
Definition falsy_items : list (string * value) :=
  [("unit", VDict [("discovery", tests_discovery)]);
   ("empty", VDict []);
   ("null", VNone)].

Definition falsy_cfg : value :=
  VDict [
    ("test_tiers", VDict falsy_items);
    ("combinations", VDict [("odd", VDict [("tiers", VList [VStr "unit"; VStr "empty"])])])].

(** Three tiers without dependencies. *)
Definition flat_tiers : value :=
  VDict [("lint", VDict [("discovery", tests_discovery)]);
         ("unit", VDict [("discovery", tests_discovery)]);
         ("docs", VDict [("discovery", tests_discovery)])].

Definition flat_cfg : value :=
  VDict [
    ("test_tiers", flat_tiers);
    ("combinations",
       VDict [("none", VDict [("tiers", VList [])]);
              ("broken", VDict [("steps", VList [VStr "lint"])])])].

(** [depends_on] and [markers_any] written as strings, not as lists. *)
Definition stringly_tiers : value :=
  VDict [("unit", VDict [("discovery",
                            VDict [("paths", VList [VStr "tests"; VStr "more"]);
                                   ("markers_any", VStr "slow")])]);
         ("integration", VDict [("depends_on", VStr "unit");
                                ("discovery", tests_discovery)])].

Definition stringly_cfg : value :=
  VDict [("test_tiers", stringly_tiers)].

(** [unit] has no [discovery]; [docs] depends on it. *)
Definition undiscoverable_tiers : value :=
  VDict [("unit", VDict [("critical", VBool false)]);
         ("docs", VDict [("depends_on", VList [VStr "unit"]);
                         ("discovery", tests_discovery)])].

Definition undiscoverable_cfg : value :=
  VDict [
    ("test_tiers", undiscoverable_tiers);
    ("combinations", VDict [("all", VDict [("tiers", VList [VStr "docs"])])])].

(** Two tiers that are not enabled. *)
Definition disabled_tiers : value :=
  VDict [("stress", VDict [("default_enabled", VBool false)]);
         ("soak", VDict [("depends_on", VList [VStr "stress"]);
                         ("default_enabled", VNone)])].

Definition disabled_cfg : value :=
  VDict [
    ("test_tiers", disabled_tiers);
    ("combinations", VDict [("heavy", VDict [("tiers", VList [VStr "soak"])])])].

(** A world that is the list of the outcomes of the invocations to come;
    when the list is used up every invocation returns 0. *)
Definition scripted (cmd : list string) (w : list outcome) : outcome * list outcome :=
  match w with
  | [] => (Returned 0, [])
  | o :: w' => (o, w')
  end.

(** [main] run by the interpreter [python] with PyYAML and a recursion
    limit of 100, on a configuration file that parses to [cfg]. *)
Definition demo_main (cfg : value) (combo : string) (w : list outcome)
    : Z * list event * list outcome :=
  main "python" true (list outcome) scripted (File (Some cfg) None) combo 100 w.

(** * Proofs *)

Lemma bind_Ok {A B} (m : result A) (k : A → result B) b :
  bind m k = Ok b → ∃ a, m = Ok a ∧ k a = Ok b.
Proof. destruct m as [a|e]; simpl; [eauto | discriminate]. Qed.

Lemma bind_Raise {A B} (m : result A) (k : A → result B) e :
  bind m k = Raise e → m = Raise e ∨ ∃ a, m = Ok a ∧ k a = Raise e.
Proof. destruct m as [a|e']; simpl; [eauto | intros [= ->]; auto]. Qed.

(** ** [add_tier] in terms of [tier_deps] *)

Lemma add_tier_str test_tiers depth name ordered :
  add_tier test_tiers (S depth) (VStr name) ordered =
  if bool_decide (name ∈ ordered) then Ok ordered
  else
    let* deps := tier_deps test_tiers (VStr name) in
    let* ordered' := for_each (add_tier test_tiers depth) deps ordered in
    Ok (ordered' ++ [name]).
Proof.
  simpl. case_bool_decide; [done|].
  destruct (dict_get test_tiers name VNone) as [meta|e]; simpl; [|done].
  destruct (negb (truthy meta)); [done|].
  destruct (dict_get meta "depends_on" (VList [])) as [d|e]; simpl; [|done].
  by destruct (py_iter d).
Qed.

Lemma add_tier_other test_tiers depth tier ordered :
  (∀ s, tier ≠ VStr s) →
  ∃ e, tier_deps test_tiers tier = Raise e ∧
       add_tier test_tiers (S depth) tier ordered = Raise e.
Proof.
  intros Hs. destruct tier; simpl;
    try (destruct (dict_get_any _ _); simpl; by eauto).
  by destruct (Hs s).
Qed.

Lemma str_or_not (tier : value) : (∃ s, tier = VStr s) ∨ (∀ s, tier ≠ VStr s).
Proof. destruct tier; eauto; by right. Qed.

Lemma tier_deps_Ok_str test_tiers tier deps :
  tier_deps test_tiers tier = Ok deps → ∃ s, tier = VStr s.
Proof.
  destruct tier; simpl; eauto;
    by destruct (dict_get_any _ _).
Qed.

Lemma tier_deps_key test_tiers s deps :
  tier_deps test_tiers (VStr s) = Ok deps → s ∈ tier_keys test_tiers.
Proof.
  simpl. destruct test_tiers as [| | | |?|items]; simpl; try done.
  induction items as [|[k v] items IH]; simpl.
  - done.
  - case_bool_decide as Hk; [subst; intros _; set_solver|].
    intros H. apply elem_of_cons. right. by apply IH.
Qed.

(** ** The invariant of [ordered] *)

Section Ordered.

Variable test_tiers : value.
Local Abbreviation ok := (ordered_ok test_tiers).
Local Abbreviation deps_of := (tier_deps test_tiers).

Lemma ordered_ok_inv l x :
  ok (l ++ [x]) →
  ok l ∧ (x ∉ l) ∧
  ∃ deps, deps_of (VStr x) = Ok deps ∧ ∀ d, d ∈ deps → ∃ s, d = VStr s ∧ s ∈ l.
Proof.
  inversion 1 as [Hnil | l' x' deps Hok Hx Hdeps Hin Heq].
  - by destruct l.
  - apply app_inj_tail in Heq as [-> ->]. eauto.
Qed.

Lemma ordered_ok_NoDup l : ok l → NoDup l.
Proof.
  induction 1 as [|l x deps _ IH Hx _ _]; [constructor|].
  apply NoDup_app. split_and!; [done | | apply NoDup_singleton].
  intros y Hy ->%list_elem_of_singleton. done.
Qed.

(** Every tier of [ordered] is defined and has its dependencies in it. *)
Lemma ordered_ok_closed l x :
  ok l → x ∈ l →
  ∃ deps, deps_of (VStr x) = Ok deps ∧ ∀ d, d ∈ deps → ∃ s, d = VStr s ∧ s ∈ l.
Proof.
  induction 1 as [|l y deps Hok IH Hy Hdeps Hin]; [by intros ?%elem_of_nil|].
  intros [Hx | ->%list_elem_of_singleton]%elem_of_app.
  - destruct (IH Hx) as (deps' & Hd & Hall). exists deps'. split; [done|].
    intros d Hd'. destruct (Hall d Hd') as (s & -> & Hs).
    exists s. split; [done|]. apply elem_of_app. by left.
  - exists deps. split; [done|].
    intros d Hd'. destruct (Hin d Hd') as (s & -> & Hs).
    exists s. split; [done|]. apply elem_of_app. by left.
Qed.

(** The tier appended last is a dependency of no tier of [ordered]. *)
Lemma ordered_ok_last_not_dep l s t tdeps :
  ok (l ++ [s]) → t ∈ l ++ [s] → deps_of (VStr t) = Ok tdeps → VStr s ∉ tdeps.
Proof.
  intros (Hok & Hs & deps & Hdeps & Hin)%ordered_ok_inv Ht Htd Hmem.
  apply elem_of_app in Ht as [Ht | ->%list_elem_of_singleton].
  - destruct (ordered_ok_closed l t Hok Ht) as (deps' & Hd' & Hall).
    rewrite Htd in Hd'. injection Hd' as <-.
    destruct (Hall _ Hmem) as (s' & [= <-] & Hs'). done.
  - rewrite Htd in Hdeps. injection Hdeps as <-.
    destruct (Hin _ Hmem) as (s' & [= <-] & Hs'). done.
Qed.

(** Dependencies come strictly earlier, by position. *)
Lemma ordered_ok_before l i x deps d :
  ok l → l !! i = Some x → deps_of (VStr x) = Ok deps → d ∈ deps →
  ∃ s j, d = VStr s ∧ (j < i)%nat ∧ l !! j = Some s.
Proof.
  intros Hok. revert i.
  induction Hok as [|l y deps' Hok IH Hy Hdeps Hin]; intros i Hi Hd Hmem.
  - by rewrite lookup_nil in Hi.
  - destruct (decide (i < length l)%nat) as [Hlt|Hge].
    + rewrite lookup_app_l in Hi by done.
      destruct (IH i Hi Hd Hmem) as (s & j & -> & Hj & Hs).
      exists s, j. split_and!; [done..|].
      rewrite lookup_app_l; [done|]. lia.
    + rewrite lookup_app_r in Hi by lia.
      apply list_lookup_singleton_Some in Hi as [Hi ->].
      rewrite Hd in Hdeps. injection Hdeps as <-.
      destruct (Hin _ Hmem) as (s & -> & Hs).
      apply list_elem_of_lookup in Hs as [j Hj].
      exists s, j. split_and!; [done| |].
      * apply lookup_lt_Some in Hj. lia.
      * rewrite lookup_app_l; [done|]. by eapply lookup_lt_Some.
Qed.

End Ordered.

(** ** Returning calls of [add_tier] keep the invariant *)

Section Walk.

Variable test_tiers : value.
Local Abbreviation ok := (ordered_ok test_tiers).
Local Abbreviation deps_of := (tier_deps test_tiers).

Lemma added_prefix o tier o' : added o tier o' → o `prefix_of` o'.
Proof.
  intros (s & _ & [[_ ->] | (_ & l & -> & Hpre)]); [done|].
  by apply prefix_app_r.
Qed.

Lemma added_elem o s o' : added o (VStr s) o' → s ∈ o'.
Proof.
  intros (s' & [= <-] & [[Hs ->] | (_ & l & -> & _)]); [done|].
  apply elem_of_app. right. by apply list_elem_of_singleton.
Qed.

Lemma for_each_add_tier_ok depth :
  (∀ tier o o', ok o → add_tier test_tiers depth tier o = Ok o' →
     ok o' ∧ added o tier o') →
  ∀ deps o o', ok o → for_each (add_tier test_tiers depth) deps o = Ok o' →
    ok o' ∧ o `prefix_of` o' ∧
    (∀ d, d ∈ deps → ∃ s, d = VStr s ∧ s ∈ o') ∧
    (∀ t tdeps, deps_of (VStr t) = Ok tdeps → deps ⊆ tdeps → t ∉ o → t ∉ o').
Proof.
  intros Hcall deps. induction deps as [|d deps IH]; intros o o' Hok Hrun.
  - injection Hrun as <-. split_and!; [done..| |done].
    by intros d ?%elem_of_nil.
  - simpl in Hrun.
    destruct (add_tier test_tiers depth d o) as [o1|e] eqn:Hd; [|done].
    destruct (Hcall _ _ _ Hok Hd) as [Hok1 Hadd].
    destruct (IH _ _ Hok1 Hrun) as (Hok' & Hpre & Hall & Hkeep).
    pose proof (added_prefix _ _ _ Hadd) as Hpre1.
    split_and!; [done | by etrans | |].
    + intros d' [-> | Hd']%elem_of_cons; [|by apply Hall].
      destruct Hadd as (s & -> & Hs). exists s. split; [done|].
      eapply elem_of_prefix; [|exact Hpre].
      apply (added_elem o). by exists s.
    + intros t tdeps Ht Hsub Hnot. apply (Hkeep t tdeps Ht).
      * intros x Hx. apply Hsub. by apply elem_of_cons; right.
      * destruct Hadd as (s & -> & [[_ ->] | (_ & l & -> & _)]); [done|].
        intros Hin.
        apply (ordered_ok_last_not_dep test_tiers l s t tdeps Hok1 Hin Ht).
        apply Hsub. by apply elem_of_cons; left.
Qed.

Lemma add_tier_ok depth tier o o' :
  ok o → add_tier test_tiers depth tier o = Ok o' → ok o' ∧ added o tier o'.
Proof.
  revert tier o o'. induction depth as [|depth IH]; intros tier o o' Hok Hrun.
  - done.
  - destruct (str_or_not tier) as [[s ->] | Hns].
    + rewrite add_tier_str in Hrun. case_bool_decide as Hin.
      * injection Hrun as <-. split; [done|]. exists s. eauto.
      * apply bind_Ok in Hrun as (deps & Hdeps & Hrun).
        apply bind_Ok in Hrun as (o1 & Hloop & [= <-]).
        destruct (for_each_add_tier_ok depth IH _ _ _ Hok Hloop)
          as (Hok1 & Hpre & Hall & Hkeep).
        split.
        -- econstructor; [done | | exact Hdeps | done].
           by apply (Hkeep s deps).
        -- exists s. split; [done|]. right. eauto.
    + destruct (add_tier_other test_tiers depth tier o Hns) as (e & _ & He).
      congruence.
Qed.

Lemma for_each_ok depth tiers o o' :
  ok o → for_each (add_tier test_tiers depth) tiers o = Ok o' →
  ok o' ∧ o `prefix_of` o' ∧ (∀ t, t ∈ tiers → ∃ s, t = VStr s ∧ s ∈ o').
Proof.
  intros Hok Hrun.
  destruct (for_each_add_tier_ok depth (add_tier_ok depth) _ _ _ Hok Hrun)
    as (? & ? & ? & _).
  done.
Qed.

End Walk.

(** ** What a plan that satisfies the invariant contains *)

Section Closure.

Variable test_tiers : value.
Local Abbreviation ok := (ordered_ok test_tiers).
Local Abbreviation dep := (depends test_tiers).

Lemma ordered_ok_reach l s v :
  ok l → s ∈ l → rtc dep (VStr s) v → ∃ s', v = VStr s' ∧ s' ∈ l.
Proof.
  intros Hok Hs Hrtc. remember (VStr s) as u eqn:Hu.
  revert s Hs Hu. induction Hrtc as [u | u w v Hstep _ IH]; intros s Hs ->.
  - eauto.
  - destruct Hstep as (deps & Hdeps & Hw).
    destruct (ordered_ok_closed _ _ _ Hok Hs) as (deps' & Hdeps' & Hall).
    rewrite Hdeps in Hdeps'. injection Hdeps' as <-.
    destruct (Hall _ Hw) as (s' & -> & Hs'). by apply (IH s').
Qed.

(** No tier of a plan is on a dependency cycle. *)
Lemma ordered_ok_acyclic l s : ok l → s ∈ l → ¬ on_cycle test_tiers (VStr s).
Proof.
  intros Hok. revert s.
  induction Hok as [|l x deps Hok IH Hx Hdeps Hin]; intros s Hs Hcyc.
  - by apply elem_of_nil in Hs.
  - apply elem_of_app in Hs as [Hs | ->%list_elem_of_singleton].
    + by apply (IH s).
    + unfold on_cycle in Hcyc. apply Hx. clear IH.
      assert (∃ d, dep (VStr x) d ∧ rtc dep d (VStr x)) as (d & Hd & Hback).
      { inversion Hcyc as [? ? Hstep | ? w ? Hstep Hrest]; subst.
        - exists (VStr x). split; [done | apply rtc_refl].
        - exists w. split; [done | by apply tc_rtc]. }
      destruct Hd as (deps' & Hdeps' & Hmem).
      rewrite Hdeps in Hdeps'. injection Hdeps' as <-.
      destruct (Hin _ Hmem) as (s' & -> & Hs').
      destruct (ordered_ok_reach l s' _ Hok Hs' Hback) as (x' & [= <-] & Hx').
      done.
Qed.

Lemma ordered_ok_reachable l tiers x :
  ok l → (∀ t, t ∈ tiers → ∃ s, t = VStr s ∧ s ∈ l) →
  reachable test_tiers tiers x → ∃ s, x = VStr s ∧ s ∈ l.
Proof.
  intros Hok Hreq (t & Ht & Hrtc).
  destruct (Hreq t Ht) as (s & -> & Hs).
  by apply (ordered_ok_reach l s).
Qed.

End Closure.

(** ** Failing calls of [add_tier] *)

Lemma for_each_cons {A S} (body : A → S → result S) x xs s :
  for_each body (x :: xs) s =
  match body x s with
  | Ok s' => for_each body xs s'
  | Raise e => Raise e
  end.
Proof. done. Qed.

Lemma for_each_Raise {A S} (body : A → S → result S) xs s e :
  for_each body xs s = Raise e → ∃ x s', x ∈ xs ∧ body x s' = Raise e.
Proof.
  revert s. induction xs as [|x xs IH]; intros s Hrun; [done|].
  simpl in Hrun. destruct (body x s) as [s1|e1] eqn:Hx.
  - destruct (IH _ Hrun) as (y & s' & Hy & Hbody).
    exists y, s'. split; [by apply elem_of_cons; right | done].
  - injection Hrun as ->. exists x, s. split; [by apply elem_of_cons; left | done].
Qed.

Lemma RecursionError_or_not (e : failure) : e = RecursionError ∨ e ≠ RecursionError.
Proof. destruct e; auto. Qed.

Lemma tier_deps_not_RecursionError test_tiers tier :
  tier_deps test_tiers tier ≠ Raise RecursionError.
Proof.
  assert (∀ d k v, dict_get d k v ≠ Raise RecursionError) as Hget.
  { intros [] k v; simpl; try done. by destruct (assoc k items). }
  assert (∀ v, py_iter v ≠ Raise RecursionError) as Hiter by (by intros []).
  destruct tier; simpl; intros H.
  1-3, 5-6: apply bind_Raise in H as [H | (? & _ & ?)]; [|done];
    destruct test_tiers; done.
  apply bind_Raise in H as [H | (meta & _ & H)]; [by apply Hget in H|].
  destruct (negb (truthy meta)); [done|].
  apply bind_Raise in H as [H | (? & _ & H)]; [by apply Hget in H|].
  by apply Hiter in H.
Qed.

Section Failures.

Variable test_tiers : value.
Local Abbreviation dep := (depends test_tiers).
Local Abbreviation deps_of := (tier_deps test_tiers).

(** A failure other than RecursionError is the failure of the lookup of a
    tier the walk has reached. *)
Lemma add_tier_Raise depth tier o e :
  add_tier test_tiers depth tier o = Raise e → e ≠ RecursionError →
  ∃ x, rtc dep tier x ∧ deps_of x = Raise e.
Proof.
  revert tier o. induction depth as [|depth IH]; intros tier o Hrun He.
  - simpl in Hrun. congruence.
  - destruct (str_or_not tier) as [[s ->] | Hns].
    + rewrite add_tier_str in Hrun. case_bool_decide; [done|].
      apply bind_Raise in Hrun as [Hrun | (deps & Hdeps & Hrun)].
      { exists (VStr s). split; [apply rtc_refl | done]. }
      apply bind_Raise in Hrun as [Hrun | (? & _ & ?)]; [|done].
      apply for_each_Raise in Hrun as (d & o1 & Hd & Hrun).
      destruct (IH _ _ Hrun He) as (x & Hrtc & Hx).
      exists x. split; [|done].
      eapply rtc_l; [|exact Hrtc]. by exists deps.
    + destruct (add_tier_other test_tiers depth tier o Hns) as (e' & Hdeps & He').
      exists tier. split; [apply rtc_refl | congruence].
Qed.

(** RecursionError comes with a walk of [depth] dependency steps. *)
Lemma add_tier_RecursionError depth tier o :
  add_tier test_tiers depth tier o = Raise RecursionError →
  ∃ names v, chain test_tiers tier names v ∧ length names = depth.
Proof.
  revert tier o. induction depth as [|depth IH]; intros tier o Hrun.
  - exists [], tier. split; [constructor | done].
  - destruct (str_or_not tier) as [[s ->] | Hns].
    + rewrite add_tier_str in Hrun. case_bool_decide; [done|].
      apply bind_Raise in Hrun as [Hrun | (deps & Hdeps & Hrun)].
      { by apply tier_deps_not_RecursionError in Hrun. }
      apply bind_Raise in Hrun as [Hrun | (? & _ & ?)]; [|done].
      apply for_each_Raise in Hrun as (d & o1 & Hd & Hrun).
      destruct (IH _ _ Hrun) as (names & v & Hchain & Hlen).
      exists (s :: names), v. split; [|simpl; congruence].
      econstructor; [|exact Hchain]. by exists deps.
    + destruct (add_tier_other test_tiers depth tier o Hns) as (e' & Hdeps & He').
      rewrite He' in Hrun. injection Hrun as ->.
      by apply tier_deps_not_RecursionError in Hdeps.
Qed.

Lemma chain_rtc t names v : chain test_tiers t names v → rtc dep t v.
Proof.
  induction 1 as [|s names d v Hd _ IH]; [apply rtc_refl|].
  by eapply rtc_l.
Qed.

Lemma chain_tc s names t v : chain test_tiers t (s :: names) v → t = VStr s ∧ tc dep t v.
Proof.
  inversion 1 as [|s' names' d v' Hd Hrest]; subst. split; [done|].
  eapply tc_rtc_r; [by apply tc_once | by eapply chain_rtc].
Qed.

Lemma chain_app t n1 n2 v :
  chain test_tiers t (n1 ++ n2) v →
  ∃ u, chain test_tiers t n1 u ∧ chain test_tiers u n2 v.
Proof.
  revert t. induction n1 as [|s n1 IH]; intros t Hc.
  - exists t. split; [constructor | done].
  - inversion Hc as [|s' names' d v' Hd Hrest]; subst.
    destruct (IH _ Hrest) as (u & H1 & H2).
    exists u. split; [by econstructor | done].
Qed.

Lemma chain_keys t names v s :
  chain test_tiers t names v → s ∈ names → s ∈ tier_keys test_tiers.
Proof.
  induction 1 as [|s' names d v [deps [Hd _]] _ IH]; [by intros ?%elem_of_nil|].
  intros [-> | Hs]%elem_of_cons; [|by apply IH].
  by eapply tier_deps_key.
Qed.

End Failures.

(** A list longer than a list that holds all its elements repeats one. *)
Lemma long_list_repeats (l dom : list string) :
  (∀ x, x ∈ l → x ∈ dom) → (length dom < length l)%nat →
  ∃ x l1 l2 l3, l = l1 ++ x :: l2 ++ x :: l3.
Proof.
  intros Hsub Hlen.
  assert (¬ NoDup l) as Hdup.
  { intros Hnd. apply (NoDup_submseteq _ dom) in Hnd; [|done].
    apply submseteq_length in Hnd. lia. }
  clear Hsub Hlen. induction l as [|x l IH].
  - destruct Hdup. constructor.
  - destruct (decide (x ∈ l)) as [Hx | Hx].
    + apply list_elem_of_split in Hx as (l2 & l3 & ->).
      by exists x, [], l2, l3.
    + destruct IH as (y & l1 & l2 & l3 & ->).
      { intros Hnd. apply Hdup. by constructor. }
      by exists y, (x :: l1), l2, l3.
Qed.

(** A walk longer than the tier map has keys runs through a cycle. *)
Lemma long_chain_cycle test_tiers t names v :
  chain test_tiers t names v →
  (length (tier_keys test_tiers) < length names)%nat →
  ∃ z, rtc (depends test_tiers) t z ∧ on_cycle test_tiers z.
Proof.
  intros Hc Hlen.
  destruct (long_list_repeats names (tier_keys test_tiers))
    as (x & l1 & l2 & l3 & ->); [|done|].
  { intros s. by eapply chain_keys. }
  apply chain_app in Hc as (u & H1 & H2).
  change (x :: l2 ++ x :: l3) with ((x :: l2) ++ (x :: l3)) in H2.
  apply chain_app in H2 as (u' & H2 & H3).
  apply chain_tc in H2 as [-> Htc].
  apply chain_tc in H3 as [-> _].
  exists (VStr x). split; [by eapply chain_rtc | done].
Qed.

(** ** Termination *)

Section Termination.

Variable test_tiers : value.
Local Abbreviation dep := (depends test_tiers).

Lemma add_tier_terminates depth tier o :
  (∀ z, rtc dep tier z → ¬ on_cycle test_tiers z) →
  (length (tier_keys test_tiers) < depth)%nat →
  add_tier test_tiers depth tier o ≠ Raise RecursionError.
Proof.
  intros Hacyc Hlen Hrun.
  apply add_tier_RecursionError in Hrun as (names & v & Hchain & <-).
  destruct (long_chain_cycle _ _ _ _ Hchain Hlen) as (z & Hz & Hcyc).
  by apply (Hacyc z).
Qed.

Lemma for_each_terminates depth tiers o :
  acyclic_from test_tiers tiers →
  (length (tier_keys test_tiers) < depth)%nat →
  for_each (add_tier test_tiers depth) tiers o ≠ Raise RecursionError.
Proof.
  intros Hacyc Hlen Hrun.
  apply for_each_Raise in Hrun as (t & o1 & Ht & Hrun).
  apply (add_tier_terminates depth t o1); [|done..].
  intros z Hz. apply Hacyc. by exists t.
Qed.

(** A loop over defined tiers only fails by RecursionError. *)
Lemma for_each_defined depth tiers o e :
  (∀ x, reachable test_tiers tiers x → defined test_tiers x) →
  for_each (add_tier test_tiers depth) tiers o = Raise e → e = RecursionError.
Proof.
  intros Hdef Hrun.
  apply for_each_Raise in Hrun as (t & o1 & Ht & Hrun).
  destruct (RecursionError_or_not e) as [|He]; [done|].
  destruct (add_tier_Raise _ _ _ _ _ Hrun He) as (x & Hx & Hfail).
  destruct (Hdef x) as [deps Hdeps]; [by exists t|]. congruence.
Qed.

(** Only tiers the walk reaches are appended. *)
Lemma add_tier_new depth tier o o' x :
  add_tier test_tiers depth tier o = Ok o' → x ∈ o' →
  x ∈ o ∨ rtc dep tier (VStr x).
Proof.
  revert tier o o'. induction depth as [|depth IH]; intros tier o o' Hrun Hx; [done|].
  destruct (str_or_not tier) as [[s ->] | Hns].
  - rewrite add_tier_str in Hrun. case_bool_decide.
    { injection Hrun as <-. by left. }
    apply bind_Ok in Hrun as (deps & Hdeps & Hrun).
    apply bind_Ok in Hrun as (o1 & Hloop & [= <-]).
    apply elem_of_app in Hx as [Hx | ->%list_elem_of_singleton];
      [|right; apply rtc_refl].
    assert (∀ ds o2, for_each (add_tier test_tiers depth) ds o2 = Ok o1 →
              ds ⊆ deps → x ∈ o2 ∨ rtc dep (VStr s) (VStr x)) as Hgen.
    { clear Hloop. intros ds. induction ds as [|d ds IHds]; intros o2 Hl Hsub.
      - injection Hl as ->. by left.
      - simpl in Hl.
        destruct (add_tier test_tiers depth d o2) as [o3|] eqn:Hd; [|done].
        destruct (IHds o3 Hl) as [Hx3 | ?]; [set_solver | | by right].
        destruct (IH _ _ _ Hd Hx3) as [? | Hrtc]; [by left|].
        right. eapply rtc_l; [|exact Hrtc]. exists deps. split; [done|].
        apply Hsub. by apply elem_of_cons; left. }
    by apply (Hgen deps o).
  - destruct (add_tier_other test_tiers depth tier o Hns) as (e & _ & He).
    congruence.
Qed.

Lemma for_each_new depth tiers o o' x :
  for_each (add_tier test_tiers depth) tiers o = Ok o' → x ∈ o' →
  x ∈ o ∨ reachable test_tiers tiers (VStr x).
Proof.
  revert o. induction tiers as [|t tiers IH]; intros o Hrun Hx.
  - injection Hrun as ->. by left.
  - simpl in Hrun.
    destruct (add_tier test_tiers depth t o) as [o1|] eqn:Ht; [|done].
    destruct (IH _ Hrun Hx) as [Hx1 | (t' & Ht' & Hrtc)].
    + destruct (add_tier_new _ _ _ _ _ Ht Hx1) as [? | Hrtc]; [by left|].
      right. exists t. split; [by apply elem_of_cons; left | done].
    + right. exists t'. split; [by apply elem_of_cons; right | done].
Qed.

End Termination.

(** ** [expand_dependencies] *)

Lemma expand_dependencies_unfold depth cfg test_tiers tiers ts :
  dict_get cfg "test_tiers" (VDict []) = Ok test_tiers →
  py_iter tiers = Ok ts →
  expand_dependencies depth cfg tiers = for_each (add_tier test_tiers depth) ts [].
Proof. intros Hcfg Hts. unfold expand_dependencies. by rewrite Hcfg, Hts. Qed.

Lemma expand_dependencies_Ok depth cfg tiers plan :
  expand_dependencies depth cfg tiers = Ok plan →
  ∃ test_tiers ts,
    dict_get cfg "test_tiers" (VDict []) = Ok test_tiers ∧
    py_iter tiers = Ok ts ∧
    for_each (add_tier test_tiers depth) ts [] = Ok plan.
Proof.
  unfold expand_dependencies. intros H.
  apply bind_Ok in H as (test_tiers & Hcfg & H).
  apply bind_Ok in H as (ts & Hts & H). eauto 6.
Qed.

Lemma for_each_plan test_tiers depth ts plan :
  for_each (add_tier test_tiers depth) ts [] = Ok plan →
  ordered_ok test_tiers plan ∧ plan_for test_tiers ts plan.
Proof.
  intros Hrun.
  destruct (for_each_ok test_tiers depth ts [] plan (ordered_ok_nil _) Hrun)
    as (Hok & _ & Hreq).
  split; [done|]. split_and!.
  - by eapply ordered_ok_NoDup.
  - intros x Hx. by eapply ordered_ok_reachable.
  - intros s Hs. destruct (for_each_new _ _ _ _ _ _ Hrun Hs) as [?%elem_of_nil|]; done.
  - intros i T deps d. by apply ordered_ok_before.
Qed.

(** ** The tier loop *)

Section Loop.

Variable sys_executable : string.
Variable World : Type.
Variable subprocess_run : list string → World → outcome * World.
Local Abbreviation run := (run_tier sys_executable World subprocess_run).
Local Abbreviation loop := (tier_loop sys_executable World subprocess_run).

Lemma run_tier_cases test_tiers t tier_cfg w r evs w' :
  dict_item test_tiers t = Ok tier_cfg →
  run t tier_cfg w = (r, evs, w') →
  (∃ e, tier_command sys_executable test_tiers t = Raise e ∧
        r = Raise e ∧ evs = [NotLaunched t] ∧ w' = w) ∨
  (∃ cmd o, tier_command sys_executable test_tiers t = Ok cmd ∧
            evs = [Invoked t cmd o] ∧ r = success_of o ∧
            subprocess_run cmd w = (o, w')).
Proof.
  intros Hcfg. unfold run_tier, tier_command. rewrite Hcfg. simpl.
  destruct (bind _ _) as [cmd|e].
  - destruct (subprocess_run cmd w) as [o w1] eqn:Hrun.
    intros H. right. exists cmd, o.
    destruct o; injection H as <- <- <-; done.
  - intros [= <- <- <-]. left. eauto.
Qed.

Lemma tier_loop_run test_tiers plan ok w r evs w' :
  loop test_tiers plan ok w = (r, evs, w') →
  loop_run sys_executable test_tiers plan ok evs r.
Proof.
  revert ok w r evs w'. induction plan as [|t rest IH]; intros ok w r evs w' H.
  - injection H as <- <- <-. constructor.
  - simpl in H. unfold tier_flag in *.
    destruct (dict_item test_tiers t) as [tier_cfg|e] eqn:Hcfg.
    2:{ injection H as <- <- <-. apply loop_lookup. unfold tier_flag. by rewrite Hcfg. }
    destruct (dict_get tier_cfg "default_enabled" (VBool true)) as [en|e] eqn:Hen.
    2:{ injection H as <- <- <-. apply loop_lookup. unfold tier_flag.
        by rewrite Hcfg; simpl; rewrite Hen. }
    assert (tier_flag test_tiers t "default_enabled" true = Ok (truthy en)) as Hflag.
    { unfold tier_flag. by rewrite Hcfg; simpl; rewrite Hen. }
    destruct (truthy en) eqn:Htr; simpl in H.
    + destruct (run t tier_cfg w) as [[r1 evs1] w1] eqn:Hrun.
      apply (run_tier_cases test_tiers) in Hrun
        as [(e & Hcmd & -> & -> & ->) | (cmd & o & Hcmd & -> & -> & Hsub)]; [| |done].
      { injection H as <- <- <-. by apply loop_build. }
      destruct (success_of o) as [[|]|e] eqn:Ho.
      * destruct (loop test_tiers rest ok w1) as [[r2 evs2] w2] eqn:Hrest.
        injection H as <- <- <-. eapply loop_pass; eauto.
      * assert (∃ cr, dict_get tier_cfg "critical" (VBool false) = Ok cr) as [cr Hcr].
        { destruct tier_cfg; try done. simpl. destruct (assoc _ _); eauto. }
        rewrite Hcr in H.
        assert (tier_flag test_tiers t "critical" false = Ok (truthy cr)) as Hcrit.
        { unfold tier_flag. by rewrite Hcfg; simpl; rewrite Hcr. }
        destruct (truthy cr).
        -- injection H as <- <- <-. by eapply loop_stop.
        -- destruct (loop test_tiers rest false w1) as [[r2 evs2] w2] eqn:Hrest.
           injection H as <- <- <-. eapply loop_fail; eauto.
      * injection H as <- <- <-. by eapply loop_launch.
    + destruct (loop test_tiers rest ok w) as [[r2 evs2] w2] eqn:Hrest.
      injection H as <- <- <-. eapply loop_skip; eauto.
Qed.

End Loop.

(** ** Properties of the runs of the loop *)

Lemma success_of_true o : success_of o = Ok true ↔ o = Returned 0.
Proof.
  destruct o as [rc| |]; simpl; split; try done.
  - intros [= H]. f_equal. lia.
  - by intros [= ->].
Qed.

Lemma succeeded_Invoked t cmd o : succeeded (Invoked t cmd o) ↔ success_of o = Ok true.
Proof.
  rewrite success_of_true. split.
  - by intros (? & ? & [= _ _ ->]).
  - intros ->. by exists t, cmd.
Qed.

Lemma executed_cons e log :
  executed (e :: log) = if is_skipped e then executed log else e :: executed log.
Proof. unfold executed. rewrite filter_cons. by destruct (is_skipped e). Qed.

Section Runs.

Variable sys_executable : string.
Variable test_tiers : value.
Local Abbreviation runs := (loop_run sys_executable test_tiers).
Local Abbreviation command t := (tier_command sys_executable test_tiers t).
Local Abbreviation enabled t := (tier_flag test_tiers t "default_enabled" true).
Local Abbreviation critical t := (tier_flag test_tiers t "critical" false).

(** Every tier the loop gets to leaves one event, in the order of the plan. *)
Lemma loop_run_tiers plan ok evs r :
  runs plan ok evs r → event_tier <$> evs `prefix_of` plan.
Proof.
  induction 1; simpl; try apply prefix_nil; try (by apply prefix_cons);
    apply prefix_cons, prefix_nil.
Qed.

(** The flag [overall_ok] is never set back to true. *)
Lemma loop_run_false plan evs r : runs plan false evs r → r ≠ Ok true.
Proof.
  remember false as ok eqn:Hok. induction 1; subst; try done; auto.
Qed.

(** The loop ends with [overall_ok] true exactly when it started with true
    and every tier it ran succeeded. *)
Lemma loop_run_success plan ok evs r :
  runs plan ok evs r →
  (∀ t, t ∈ plan → ∃ b, enabled t = Ok b) →
  r = Ok true ↔ ok = true ∧ Forall succeeded (executed evs).
Proof.
  induction 1 as [ok | t rest ok e He | t rest ok evs r He Hrun IH
    | t rest ok e He Hcmd | t rest ok cmd o e He Hcmd Ho
    | t rest ok cmd o evs r He Hcmd Ho Hrun IH
    | t rest ok cmd o evs r He Hcmd Ho Hc Hrun IH | t rest ok cmd o He Hcmd Ho Hc];
    intros Hres; rewrite ?executed_cons; simpl.
  - split; [intros [= ->]; by split | by intros [-> _]].
  - destruct (Hres t) as [b Hb]; [by apply elem_of_cons; left | congruence].
  - apply IH. intros t' Ht'. apply Hres. by apply elem_of_cons; right.
  - split; [done|]. intros [_ Hall]. apply Forall_cons_1 in Hall as [(? & ? & ?) _]. done.
  - split; [done|]. intros [_ Hall]. apply Forall_cons_1 in Hall as [Hs _].
    apply succeeded_Invoked in Hs. congruence.
  - rewrite Forall_cons, succeeded_Invoked, IH.
    + naive_solver.
    + intros t' Ht'. apply Hres. by apply elem_of_cons; right.
  - split.
    + intros ->. by apply loop_run_false in Hrun.
    + intros [_ Hall]. apply Forall_cons_1 in Hall as [Hs _].
      apply succeeded_Invoked in Hs. congruence.
  - split; [done|]. intros [_ Hall]. apply Forall_cons_1 in Hall as [Hs _].
    apply succeeded_Invoked in Hs. congruence.
Qed.

(** A failed critical tier is the last tier of the run. *)
Lemma loop_run_stop plan ok evs r i t cmd o :
  runs plan ok evs r →
  evs !! i = Some (Invoked t cmd o) → success_of o = Ok false →
  critical t = Ok true →
  length evs = S i ∧ r = Ok false.
Proof.
  intros Hrun. revert i.
  induction Hrun as [ok | t' rest ok e He | t' rest ok evs r He Hrun IH
    | t' rest ok e He Hcmd | t' rest ok cmd' o' e He Hcmd Ho'
    | t' rest ok cmd' o' evs r He Hcmd Ho' Hrun IH
    | t' rest ok cmd' o' evs r He Hcmd Ho' Hc' Hrun IH | t' rest ok cmd' o' He Hcmd Ho' Hc'];
    intros [|i] Hi Ho Hc; simpl in Hi; try done;
    try (injection Hi as -> -> ->); try congruence;
    try (destruct (IH i Hi Ho Hc) as [Hlen ->]; simpl; by rewrite Hlen).
Qed.

(** What the loop does with the tier at the head of what is left to run. *)
Lemma loop_run_head c rest ok evs r b :
  runs (c :: rest) ok evs r → enabled c = Ok b →
  ∃ e evs', evs = e :: evs' ∧ processed sys_executable test_tiers c e.
Proof.
  unfold processed.
  inversion 1; subst; intros Hb; try congruence; eexists _, _;
    (split; [reflexivity|]); simpl; (split; [reflexivity|]);
    (split; [congruence|]); intros Hen; try congruence;
    (split; [reflexivity|]); intros cmd' Hcmd'; try congruence;
    assert (cmd' = cmd) as -> by congruence; eauto.
Qed.

(** After a failed tier that is not critical the loop goes on to the next
    tier, and it does not end with [overall_ok] true. *)
Lemma loop_run_continue plan ok evs r i t cmd o c b :
  runs plan ok evs r →
  evs !! i = Some (Invoked t cmd o) → success_of o = Ok false →
  critical t = Ok false →
  plan !! S i = Some c → enabled c = Ok b →
  r ≠ Ok true ∧
  ∃ e, evs !! S i = Some e ∧ processed sys_executable test_tiers c e.
Proof.
  intros Hrun. revert i.
  induction Hrun as [ok | t' rest ok e He | t' rest ok evs r He Hrun IH
    | t' rest ok e He Hcmd | t' rest ok cmd' o' e He Hcmd Ho'
    | t' rest ok cmd' o' evs r He Hcmd Ho' Hrun IH
    | t' rest ok cmd' o' evs r He Hcmd Ho' Hc' Hrun IH | t' rest ok cmd' o' He Hcmd Ho' Hc'];
    intros [|i] Hi Ho Hc Hplan Hb; simpl in Hi, Hplan; try done;
    try (injection Hi as -> -> ->); try congruence;
    try (by apply (IH i)).
  split; [by eapply loop_run_false|].
  destruct rest as [|c' rest]; [done|]. injection Hplan as ->.
  destruct (loop_run_head _ _ _ _ _ _ Hrun Hb) as (e & evs' & -> & Hshape).
  exists e. done.
Qed.

(** A tier that is not enabled is only ever skipped. *)
Lemma loop_run_skip plan ok evs r t e :
  runs plan ok evs r → enabled t = Ok false →
  e ∈ evs → event_tier e = t → e = Skipped t.
Proof.
  intros Hrun Ht.
  induction Hrun; intros He Hname;
    repeat match goal with
    | H : _ ∈ [] |- _ => by apply elem_of_nil in H
    | H : _ ∈ _ :: _ |- _ => apply elem_of_cons in H as [-> | H]
    end; simpl in *; subst; try congruence; auto.
Qed.

End Runs.

(** ** Plans are resolvable *)

Lemma tier_deps_item test_tiers s deps :
  tier_deps test_tiers (VStr s) = Ok deps →
  ∃ items, dict_item test_tiers s = Ok (VDict items) ∧ truthy (VDict items) = true.
Proof.
  simpl. intros H. apply bind_Ok in H as (meta & Hmeta & H).
  destruct (truthy meta) eqn:Htr; simpl in H; [|done].
  apply bind_Ok in H as (d & Hd & _).
  destruct meta; try done. exists items. split; [|done].
  destruct test_tiers; try done. simpl in *.
  destruct (assoc s items0); [done|]. by injection Hmeta.
Qed.

Lemma tier_deps_flag test_tiers s deps key default :
  tier_deps test_tiers (VStr s) = Ok deps →
  ∃ b, tier_flag test_tiers s key default = Ok b.
Proof.
  intros (items & Hitem & _)%tier_deps_item. unfold tier_flag.
  rewrite Hitem. simpl. destruct (assoc key items); eauto.
Qed.

Lemma ordered_ok_flag test_tiers plan t key default :
  ordered_ok test_tiers plan → t ∈ plan →
  ∃ b, tier_flag test_tiers t key default = Ok b.
Proof.
  intros Hok Ht.
  destruct (ordered_ok_closed _ _ _ Hok Ht) as (deps & Hdeps & _).
  by eapply tier_deps_flag.
Qed.

(** ** [main] *)

Section Main.

Variable sys_executable : string.
Variable yaml_installed : bool.
Variable World : Type.
Variable subprocess_run : list string → World → outcome * World.
Local Abbreviation loop := (tier_loop sys_executable World subprocess_run).
Local Abbreviation resolve := (resolve_plan yaml_installed).
Local Abbreviation run_main := (main sys_executable yaml_installed World subprocess_run).

Lemma resolve_plan_Ok config combo depth test_tiers plan :
  resolve config combo depth = Ok (test_tiers, plan) →
  ∃ cfg requested,
    load_codex_config yaml_installed config = Ok cfg ∧
    collect_tiers_for_combo cfg combo = Ok requested ∧
    expand_dependencies depth cfg requested = Ok plan ∧
    dict_get cfg "test_tiers" (VDict []) = Ok test_tiers.
Proof.
  unfold resolve_plan. intros H.
  apply bind_Ok in H as (cfg & Hcfg & H).
  apply bind_Ok in H as (requested & Hreq & H).
  apply bind_Ok in H as (plan' & Hplan & H).
  apply bind_Ok in H as (tt & Htt & [= <- <-]).
  eauto 10.
Qed.

Lemma resolve_plan_ordered config combo depth test_tiers plan :
  resolve config combo depth = Ok (test_tiers, plan) →
  ordered_ok test_tiers plan.
Proof.
  intros (cfg & requested & _ & _ & Hplan & Htt)%resolve_plan_Ok.
  apply expand_dependencies_Ok in Hplan as (tt & ts & Htt' & _ & Hrun).
  rewrite Htt in Htt'. injection Htt' as <-.
  by apply for_each_plan in Hrun as [Hok _].
Qed.

Lemma main_run config combo depth w test_tiers plan :
  resolve config combo depth = Ok (test_tiers, plan) →
  ∃ r log w',
    loop test_tiers plan true w = (r, log, w') ∧
    run_main config combo depth w = (exit_status r, log, w').
Proof.
  intros Hres. unfold main. rewrite Hres.
  destruct (loop test_tiers plan true w) as [[r log] w'].
  exists r, log, w'. split; [done|]. by destruct r as [[|]|].
Qed.

Lemma main_abort config combo depth w e :
  resolve config combo depth = Raise e →
  run_main config combo depth w = (1, [], w).
Proof. intros Hres. unfold main. by rewrite Hres. Qed.

(** Taking a tier that is not enabled out of the plan changes neither the
    result of the loop, nor the world, nor the tiers that were run. *)
Lemma tier_loop_skip test_tiers l1 t l2 ok w :
  tier_flag test_tiers t "default_enabled" true = Ok false →
  ∃ r log log' w',
    loop test_tiers (l1 ++ t :: l2) ok w = (r, log, w') ∧
    loop test_tiers (l1 ++ l2) ok w = (r, log', w') ∧
    executed log = executed log'.
Proof.
  intros Ht. revert ok w. induction l1 as [|x l1 IH]; intros ok w.
  - simpl. unfold tier_flag in Ht.
    destruct (dict_item test_tiers t) as [tier_cfg|]; [|done]. simpl in Ht.
    destruct (dict_get tier_cfg "default_enabled" (VBool true)) as [en|]; [|done].
    injection Ht as ->. simpl.
    destruct (loop test_tiers l2 ok w) as [[r log] w'].
    exists r, (Skipped t :: log), log, w'. by rewrite executed_cons.
  - simpl.
    destruct (dict_item test_tiers x) as [tier_cfg|]; [|by eauto 10].
    destruct (dict_get tier_cfg "default_enabled" (VBool true)) as [en|]; [|by eauto 10].
    destruct (negb (truthy en)).
    { destruct (IH ok w) as (r & log & log' & w' & -> & -> & Hex).
      exists r, (Skipped x :: log), (Skipped x :: log'), w'.
      by rewrite !executed_cons. }
    destruct (run_tier _ _ _ x tier_cfg w) as [[[[|]|] evs] w1]; [| |by eauto 10].
    + destruct (IH ok w1) as (r & log & log' & w' & -> & -> & Hex).
      exists r, (evs ++ log), (evs ++ log'), w'. split_and!; [done..|].
      unfold executed in *. by rewrite !filter_app, Hex.
    + destruct (dict_get tier_cfg "critical" (VBool false)) as [cr|]; [|by eauto 10].
      destruct (truthy cr); [by eauto 10|].
      destruct (IH false w1) as (r & log & log' & w' & -> & -> & Hex).
      exists r, (evs ++ log), (evs ++ log'), w'. split_and!; [done..|].
      unfold executed in *. by rewrite !filter_app, Hex.
Qed.

End Main.

(** ** Duplicate requests *)

Lemma elem_of_dedup_from seen names x :
  x ∈ dedup_from seen names ↔ x ∈ names ∧ x ∉ seen.
Proof.
  revert seen. induction names as [|y names IH]; intros seen; simpl.
  - set_solver.
  - case_bool_decide as Hy.
    + rewrite IH. set_solver.
    + rewrite elem_of_cons, IH. split.
      * intros [-> | [? ?]]; set_solver.
      * intros [[-> | ?]%elem_of_cons ?]; [by left|].
        destruct (decide (x = y)) as [->|]; [by left|]. right. set_solver.
Qed.

Lemma dedup_from_NoDup seen names : NoDup (dedup_from seen names).
Proof.
  revert seen. induction names as [|y names IH]; intros seen; simpl.
  - constructor.
  - case_bool_decide; [done|]. constructor; [|done].
    rewrite elem_of_dedup_from. set_solver.
Qed.

Lemma for_each_dedup test_tiers depth names seen o :
  ordered_ok test_tiers o → (∀ x, x ∈ seen → x ∈ o) →
  for_each (add_tier test_tiers (S depth)) (VStr <$> names) o =
  for_each (add_tier test_tiers (S depth)) (VStr <$> dedup_from seen names) o.
Proof.
  revert seen o. induction names as [|x names IH]; intros seen o Hok Hseen; [done|].
  cbn [dedup_from]. rewrite fmap_cons, for_each_cons. case_bool_decide as Hx.
  - rewrite add_tier_str, bool_decide_eq_true_2 by auto. by apply IH.
  - rewrite fmap_cons, for_each_cons.
    destruct (add_tier test_tiers (S depth) (VStr x) o) as [o1|e] eqn:Hrun; [|done].
    destruct (add_tier_ok _ _ _ _ _ Hok Hrun) as [Hok1 Hadd].
    apply IH; [done|].
    intros y [-> | Hy]%elem_of_cons; [by eapply added_elem|].
    eapply elem_of_prefix; [by apply Hseen | by eapply added_prefix].
Qed.

(** ** Tier maps that agree on every lookup *)

Lemma for_each_ext {A S} (f g : A → S → result S) xs s :
  (∀ x s', f x s' = g x s') → for_each f xs s = for_each g xs s.
Proof.
  intros Hfg. revert s. induction xs as [|x xs IH]; intros s; [done|].
  simpl. rewrite Hfg. by destruct (g x s).
Qed.

Lemma add_tier_ext tt tt' depth tier o :
  (∀ t, tier_deps tt t = tier_deps tt' t) →
  add_tier tt depth tier o = add_tier tt' depth tier o.
Proof.
  intros Hdeps. revert tier o. induction depth as [|depth IH]; intros tier o; [done|].
  destruct (str_or_not tier) as [[s ->] | Hns].
  - rewrite !add_tier_str, Hdeps. case_bool_decide; [done|].
    destruct (tier_deps tt' (VStr s)) as [deps|]; [|done]. simpl.
    by rewrite (for_each_ext _ (add_tier tt' depth)).
  - destruct (add_tier_other tt depth tier o Hns) as (e & He & ->).
    destruct (add_tier_other tt' depth tier o Hns) as (e' & He' & ->).
    congruence.
Qed.

Lemma assoc_remove_key k k' items :
  assoc k' (remove_key k items) = if bool_decide (k' = k) then None else assoc k' items.
Proof.
  unfold remove_key. induction items as [|[k0 v] items IH]; simpl.
  - by case_bool_decide.
  - rewrite filter_cons. simpl. destruct (decide (k0 ≠ k)) as [Hne|Heq]; simpl.
    + rewrite IH. repeat case_bool_decide; congruence.
    + apply dec_stable in Heq as ->. rewrite IH. repeat case_bool_decide; congruence.
Qed.

Lemma tier_deps_falsy items k meta :
  assoc k items = Some meta → truthy meta = false →
  tier_deps (VDict items) (VStr k) = Raise (ConfigError (TierNotDefined (VStr k))).
Proof. intros Hk Hf. simpl. by rewrite Hk; simpl; rewrite Hf. Qed.

Lemma tier_deps_absent items k :
  assoc k items = None →
  tier_deps (VDict items) (VStr k) = Raise (ConfigError (TierNotDefined (VStr k))).
Proof. intros Hk. simpl. by rewrite Hk. Qed.

Lemma tier_deps_remove_key items k meta tier :
  assoc k items = Some meta → truthy meta = false →
  tier_deps (VDict items) tier = tier_deps (VDict (remove_key k items)) tier.
Proof.
  intros Hk Hf. destruct tier; try done.
  destruct (decide (s = k)) as [->|Hne].
  - rewrite (tier_deps_falsy _ _ _ Hk Hf), tier_deps_absent; [done|].
    by rewrite assoc_remove_key, bool_decide_eq_true_2.
  - simpl. by rewrite assoc_remove_key, bool_decide_eq_false_2.
Qed.

(** ** Requests that cannot be expanded *)

Lemma for_each_no_plan test_tiers depth ts plan x :
  for_each (add_tier test_tiers depth) ts [] = Ok plan →
  reachable test_tiers ts x →
  defined test_tiers x ∧ ¬ on_cycle test_tiers x.
Proof.
  intros Hrun Hx.
  apply for_each_plan in Hrun as (Hok & _ & Hall & _).
  destruct (Hall x Hx) as (s & -> & Hs). split.
  - destruct (ordered_ok_closed _ _ _ Hok Hs) as (deps & Hdeps & _). by exists deps.
  - by eapply ordered_ok_acyclic.
Qed.

Lemma plan_defined test_tiers depth ts plan :
  for_each (add_tier test_tiers depth) ts [] = Ok plan →
  ∀ x, reachable test_tiers ts x → defined test_tiers x.
Proof. intros Hrun x Hx. by destruct (for_each_no_plan _ _ _ _ _ Hrun Hx). Qed.

Lemma plan_acyclic test_tiers depth ts plan :
  for_each (add_tier test_tiers depth) ts [] = Ok plan →
  acyclic_from test_tiers ts.
Proof. intros Hrun x Hx. by destruct (for_each_no_plan _ _ _ _ _ Hrun Hx). Qed.

Lemma resolve_plan_Raise yaml_installed config combo depth cfg requested e :
  load_codex_config yaml_installed config = Ok cfg →
  collect_tiers_for_combo cfg combo = Ok requested →
  expand_dependencies depth cfg requested = Raise e →
  resolve_plan yaml_installed config combo depth = Raise e.
Proof.
  intros Hcfg Hreq Hplan. unfold resolve_plan.
  rewrite Hcfg. simpl. rewrite Hreq. simpl. by rewrite Hplan.
Qed.

Lemma expand_dependencies_requested depth cfg test_tiers names plan name :
  dict_get cfg "test_tiers" (VDict []) = Ok test_tiers →
  expand_dependencies depth cfg (VList (VStr <$> names)) = Ok plan →
  reachable test_tiers (VStr <$> names) (VStr name) →
  name ∈ plan ∧ defined test_tiers (VStr name) ∧ ¬ on_cycle test_tiers (VStr name).
Proof.
  intros Hcfg Hrun Hname.
  rewrite (expand_dependencies_unfold depth cfg test_tiers
             (VList (VStr <$> names)) (VStr <$> names) Hcfg eq_refl) in Hrun.
  split; [|by eapply for_each_no_plan].
  apply for_each_plan in Hrun as (_ & _ & Hall & _).
  by destruct (Hall _ Hname) as (s & [= <-] & Hs).
Qed.

Lemma reachable_requested test_tiers names name :
  name ∈ names → reachable test_tiers (VStr <$> names) (VStr name).
Proof.
  intros Hname. exists (VStr name). split; [|apply rtc_refl].
  apply list_elem_of_fmap. eauto.
Qed.

Lemma tier_deps_ConfigError test_tiers x msg :
  tier_deps test_tiers x = Raise (ConfigError msg) → msg = TierNotDefined x.
Proof.
  assert (∀ d k v, dict_get d k v ≠ Raise (ConfigError msg)) as Hget.
  { intros [] k v; simpl; try done. by destruct (assoc k items). }
  assert (∀ v, py_iter v ≠ Raise (ConfigError msg)) as Hiter by (by intros []).
  destruct x; simpl; intros H.
  1-3, 5-6: apply bind_Raise in H as [H | (? & _ & [= <-])]; [|done];
    destruct test_tiers; done.
  apply bind_Raise in H as [H | (meta & _ & H)]; [by apply Hget in H|].
  destruct (negb (truthy meta)); [by injection H as <-|].
  apply bind_Raise in H as [H | (? & _ & H)]; [by apply Hget in H|].
  by apply Hiter in H.
Qed.

Lemma absent_not_defined test_tiers name :
  name ∉ tier_keys test_tiers → ¬ defined test_tiers (VStr name).
Proof. intros Hname [deps Hdeps]. by apply tier_deps_key in Hdeps. Qed.

(** A property of the requested tiers that dependencies inherit holds for
    everything the request reaches. *)
Lemma reachable_closed test_tiers ts (P : value → Prop) :
  (∀ t, t ∈ ts → P t) →
  (∀ x y, P x → depends test_tiers x y → P y) →
  ∀ x, reachable test_tiers ts x → P x.
Proof.
  intros Hreq Hstep x (t & Ht & Hrtc). apply Hreq in Ht.
  induction Hrtc as [|u v w Huv _ IH]; [done|].
  apply IH. by apply (Hstep u).
Qed.

Lemma exit_status_0 r : exit_status r = 0 ↔ r = Ok true.
Proof. destruct r as [[|]|]; simpl; split; done. Qed.

Lemma exit_status_1 r : r ≠ Ok true → exit_status r = 1.
Proof. by destruct r as [[|]|]. Qed.

(** In a plan of three tiers without repetition, the event of the second
    tier is the second event of the run. *)
Lemma second_of_three sys_executable test_tiers a b c ok log r e :
  loop_run sys_executable test_tiers [a; b; c] ok log r →
  NoDup [a; b; c] → e ∈ log → event_tier e = b →
  log !! 1%nat = Some e ∧
  ∃ ea, log !! 0%nat = Some ea ∧ event_tier ea = a.
Proof.
  intros Hrun Hnd He Hb.
  pose proof (loop_run_tiers _ _ _ _ _ _ Hrun) as Hpre.
  apply list_elem_of_lookup in He as [i Hi].
  assert ([a; b; c] !! i = Some b) as Hi'.
  { eapply prefix_lookup_Some; [|exact Hpre].
    by rewrite list_lookup_fmap, Hi; simpl; rewrite Hb. }
  assert (i = 1%nat) as -> by (by eapply (NoDup_lookup [a; b; c])).
  split; [done|].
  destruct log as [|ea log]; [done|]. exists ea. split; [done|].
  destruct Hpre as [k Hk]. by injection Hk.
Qed.

(** ** Recursion limits *)

Lemma for_each_app {A S} (body : A → S → result S) xs ys s :
  for_each body (xs ++ ys) s = let* s' := for_each body xs s in for_each body ys s'.
Proof.
  revert s. induction xs as [|x xs IH]; intros s; [done|].
  simpl. destruct (body x s); [apply IH | done].
Qed.

Lemma for_each_mono {A S} (f g : A → S → result S) xs s r :
  (∀ x s' r', f x s' = r' → r' ≠ Raise RecursionError → g x s' = r') →
  for_each f xs s = r → r ≠ Raise RecursionError → for_each g xs s = r.
Proof.
  intros Hfg. revert s. induction xs as [|x xs IH]; intros s Hrun Hr; [done|].
  simpl in *. destruct (f x s) as [s1|e] eqn:Hx.
  - rewrite (Hfg x s (Ok s1) Hx) by done. by apply IH.
  - rewrite (Hfg x s (Raise e) Hx); [done|]. by subst.
Qed.

Lemma add_tier_mono test_tiers depth tier o r :
  add_tier test_tiers depth tier o = r → r ≠ Raise RecursionError →
  add_tier test_tiers (S depth) tier o = r.
Proof.
  revert tier o r. induction depth as [|depth IH]; intros tier o r Hrun Hr.
  - simpl in Hrun. by subst.
  - destruct (str_or_not tier) as [[s ->] | Hns].
    + rewrite add_tier_str in *. case_bool_decide; [done|].
      destruct (tier_deps test_tiers (VStr s)) as [deps|]; [|done].
      cbn [bind] in *.
      destruct (for_each (add_tier test_tiers depth) deps o) as [o1|e] eqn:Hloop.
      * by rewrite (for_each_mono _ (add_tier test_tiers (S depth)) _ _ _ IH Hloop).
      * rewrite (for_each_mono _ (add_tier test_tiers (S depth)) _ _ _ IH Hloop);
          [done|]. simpl in Hrun. by subst.
    + destruct (add_tier_other test_tiers depth tier o Hns) as (e & He & Hd).
      destruct (add_tier_other test_tiers (S depth) tier o Hns) as (e' & He' & Hd').
      congruence.
Qed.

Lemma add_tier_mono_le test_tiers depth depth' tier o r :
  (depth ≤ depth')%nat →
  add_tier test_tiers depth tier o = r → r ≠ Raise RecursionError →
  add_tier test_tiers depth' tier o = r.
Proof.
  induction 1 as [|depth' _ IH]; [done|].
  intros Hrun Hr. apply add_tier_mono; auto.
Qed.

(** ** The recursion limit that decides the walk *)

Section Threshold.

Variable test_tiers : value.
Local Abbreviation ok := (ordered_ok test_tiers).
Local Abbreviation keys := (tier_keys test_tiers).

Lemma stack_ok_not_in o stack t x :
  stack_ok test_tiers o stack t → x ∈ stack → x ∉ o.
Proof.
  revert t. induction stack as [|s stack IH]; intros t Hst Hx.
  - by apply elem_of_nil in Hx.
  - destruct Hst as [[Hs _] Hst].
    apply elem_of_cons in Hx as [-> | Hx]; [done|]. by eapply IH.
Qed.

Lemma stack_ok_keys o stack t x :
  stack_ok test_tiers o stack t → x ∈ stack → x ∈ keys.
Proof.
  revert t. induction stack as [|s stack IH]; intros t Hst Hx.
  - by apply elem_of_nil in Hx.
  - destruct Hst as [(_ & pre & post & Hdeps & _) Hst].
    apply elem_of_cons in Hx as [-> | Hx]; [by eapply tier_deps_key|].
    by eapply IH.
Qed.

Lemma stack_ok_length o stack t :
  stack_ok test_tiers o stack t → NoDup stack → (length stack ≤ length keys)%nat.
Proof.
  intros Hst Hnd. apply submseteq_length, NoDup_submseteq; [done|].
  intros x Hx. by eapply stack_ok_keys.
Qed.

Lemma stack_ok_mono o o2 stack t :
  stack_ok test_tiers o stack t → o ⊆ o2 → (∀ x, x ∈ stack → x ∉ o2) →
  stack_ok test_tiers o2 stack t.
Proof.
  revert t. induction stack as [|s stack IH]; intros t Hst Hsub Hnot; [done|].
  destruct Hst as [(Hs & pre & post & Hdeps & Hpre) Hst]. split.
  - split; [apply Hnot; by left|].
    exists pre, post. split; [done|].
    intros p Hp. destruct (Hpre p Hp) as (q & -> & Hq). exists q. split; [done|].
    by apply Hsub.
  - apply IH; [done..|]. intros x Hx. apply Hnot. by right.
Qed.

Lemma stack_ok_cycle o l1 s l2 t x :
  stack_ok test_tiers o (l1 ++ s :: l2) (VStr t) → x ∈ l1 ++ [s] →
  ∃ y, y ∈ t :: l1 ∧ open_edge test_tiers o x (VStr y).
Proof.
  revert t. induction l1 as [|a l1 IH]; intros t Hst Hx.
  - destruct Hst as [Hedge _]. apply list_elem_of_singleton in Hx as ->.
    exists t. split; [by left | done].
  - destruct Hst as [Hedge Hst].
    change ((a :: l1) ++ [s]) with (a :: (l1 ++ [s])) in Hx.
    apply elem_of_cons in Hx as [-> | Hx].
    + exists t. split; [by left | done].
    + destruct (IH a Hst Hx) as (y & Hy & Hopen). exists y. split; [by right | done].
Qed.

Lemma for_each_present_or_limit depth pre o :
  (∀ p, p ∈ pre → ∃ q, p = VStr q ∧ q ∈ o) →
  for_each (add_tier test_tiers depth) pre o = Ok o ∨
  for_each (add_tier test_tiers depth) pre o = Raise RecursionError.
Proof.
  intros Hpre. induction pre as [|p pre IH]; [by left|].
  destruct (Hpre p) as (q & -> & Hq); [by left|].
  rewrite for_each_cons. destruct depth as [|depth]; [by right|].
  rewrite add_tier_str, bool_decide_eq_true_2 by done.
  apply IH. intros p Hp. apply Hpre. by right.
Qed.

(** A set of tiers each of which is held up at a dependency of the set:
    [add_tier] never comes back from any of them. *)
Lemma closed_set_RecursionError (P : string → Prop) o :
  (∀ x, P x → ∃ y, P y ∧ open_edge test_tiers o x (VStr y)) →
  ∀ depth x, P x → add_tier test_tiers depth (VStr x) o = Raise RecursionError.
Proof.
  intros Hclosed. induction depth as [|depth IH]; intros x Hx; [done|].
  destruct (Hclosed x Hx) as (y & Hy & Hnot & pre & post & Hdeps & Hpre).
  rewrite add_tier_str, bool_decide_eq_false_2, Hdeps by done. cbn [bind].
  rewrite for_each_app.
  destruct (for_each_present_or_limit depth pre o Hpre) as [-> | ->]; [|done].
  cbn [bind]. rewrite for_each_cons. by rewrite (IH y Hy).
Qed.

(** A call of [add_tier] for a tier whose call is under way never comes
    back. *)
Lemma stack_repeat_RecursionError o stack t depth :
  stack_ok test_tiers o stack (VStr t) → t ∈ stack →
  add_tier test_tiers depth (VStr t) o = Raise RecursionError.
Proof.
  intros Hst Ht. apply list_elem_of_split in Ht as (l1 & l2 & ->).
  apply (closed_set_RecursionError (λ x, x ∈ l1 ++ [t])); [|set_solver].
  intros x Hx. destruct (stack_ok_cycle _ _ _ _ _ _ Hst Hx) as (y & Hy & Hopen).
  exists y. split; [set_solver | done].
Qed.

(** A call of [add_tier] that does not end in RecursionError never has more
    calls under way than the tier map has keys. *)
Lemma add_tier_threshold depth tier o stack r :
  ok o → stack_ok test_tiers o stack tier → NoDup stack →
  add_tier test_tiers depth tier o = r → r ≠ Raise RecursionError →
  add_tier test_tiers (S (length keys) - length stack) tier o = r ∧
  ∀ o', r = Ok o' → ∀ x, x ∈ stack → x ∉ o'.
Proof.
  revert tier o stack r.
  induction depth as [|depth IH]; intros tier o stack r Hok Hst Hnd Hrun Hr.
  { simpl in Hrun. by subst. }
  pose proof (stack_ok_length _ _ _ Hst Hnd) as Hlen.
  replace (S (length keys) - length stack)%nat
    with (S (length keys - length stack)) by lia.
  destruct (str_or_not tier) as [[s ->] | Hns].
  2:{ destruct (add_tier_other test_tiers depth tier o Hns) as (e & He & Hd).
      destruct (add_tier_other test_tiers (length keys - length stack) tier o Hns)
        as (e' & He' & Hd').
      split; [congruence|]. intros o' ->. congruence. }
  rewrite add_tier_str in Hrun. rewrite add_tier_str.
  case_bool_decide as Hin.
  { split; [done|]. intros o' Ho' x Hx. subst r. injection Ho' as <-.
    by eapply stack_ok_not_in. }
  destruct (tier_deps test_tiers (VStr s)) as [deps|e] eqn:Hdeps; [|by subst].
  cbn [bind] in *.
  assert (s ∉ stack) as Hfresh.
  { intros Hs. apply Hr. rewrite <- Hrun.
    pose proof (stack_repeat_RecursionError o stack s (S depth) Hst Hs) as Hrec.
    rewrite add_tier_str, bool_decide_eq_false_2, Hdeps in Hrec by done.
    exact Hrec. }
  assert (∀ rest pre o1 r1,
            deps = pre ++ rest → ok o1 →
            (∀ p, p ∈ pre → ∃ q, p = VStr q ∧ q ∈ o1) →
            s ∉ o1 → stack_ok test_tiers o1 stack (VStr s) →
            for_each (add_tier test_tiers depth) rest o1 = r1 →
            r1 ≠ Raise RecursionError →
            for_each (add_tier test_tiers (length keys - length stack)) rest o1 = r1 ∧
            ∀ o', r1 = Ok o' → ∀ x, x ∈ s :: stack → x ∉ o') as Hinner.
  { induction rest as [|p rest IHrest]; intros pre o1 r1 Hsplit Hok1 Hpre Hs1 Hst1 Hloop Hr1.
    - simpl in *. split; [done|]. intros o' Ho' x Hx. subst r1. injection Ho' as <-.
      apply elem_of_cons in Hx as [-> | Hx]; [done|]. by eapply stack_ok_not_in.
    - rewrite for_each_cons in Hloop. rewrite for_each_cons.
      assert (stack_ok test_tiers o1 (s :: stack) p) as Hst2.
      { split; [|done]. split; [done|]. exists pre, rest. by rewrite Hdeps, Hsplit. }
      assert (NoDup (s :: stack)) as Hnd2 by (by apply NoDup_cons).
      destruct (add_tier test_tiers depth p o1) as [o2|e] eqn:Hp.
      + destruct (IH p o1 (s :: stack) (Ok o2) Hok1 Hst2 Hnd2 Hp) as [Hp' Hnot];
          [done|].
        change (S (length keys) - length (s :: stack))%nat
          with (length keys - length stack)%nat in Hp'.
        rewrite Hp'.
        destruct (add_tier_ok test_tiers _ _ _ _ Hok1 Hp) as [Hok2 Hadd].
        pose proof (added_prefix _ _ _ Hadd) as Hprefix.
        destruct Hadd as (q & -> & Hq).
        assert (q ∈ o2) as Hq2.
        { destruct Hq as [[Hq ->] | (_ & l & -> & _)]; [done | set_solver]. }
        assert (o1 ⊆ o2) as Hsub.
        { intros x Hx. destruct Hprefix as [k ->]. set_solver. }
        apply (IHrest (pre ++ [VStr q])); try done.
        * by rewrite <- app_assoc.
        * intros p [Hp1 | ->%list_elem_of_singleton]%elem_of_app; [|by exists q].
          destruct (Hpre p Hp1) as (q' & -> & Hq'). exists q'. split; [done|].
          by apply Hsub.
        * apply (Hnot o2 eq_refl). by left.
        * apply (stack_ok_mono o1); [done..|].
          intros x Hx. apply (Hnot o2 eq_refl). by right.
      + destruct (IH p o1 (s :: stack) (Raise e) Hok1 Hst2 Hnd2 Hp) as [Hp' _].
        { by subst r1. }
        change (S (length keys) - length (s :: stack))%nat
          with (length keys - length stack)%nat in Hp'.
        rewrite Hp'. split; [done|]. by subst r1. }
  destruct (for_each (add_tier test_tiers depth) deps o) as [o1|e] eqn:Hloop.
  - destruct (Hinner deps [] o (Ok o1) eq_refl Hok) as [Hloop' Hnot];
      [by intros ? ?%elem_of_nil | done..|].
    rewrite Hloop'. cbn [bind] in *. split; [done|].
    intros o' Ho' x Hx. subst r. injection Ho' as <-.
    apply not_elem_of_app. split; [apply (Hnot o1 eq_refl); by right|].
    intros ->%list_elem_of_singleton. done.
  - destruct (Hinner deps [] o (Raise e) eq_refl Hok) as [Hloop' _];
      [by intros ? ?%elem_of_nil | done.. | |].
    { cbn [bind] in Hrun. by subst r. }
    rewrite Hloop'. split; [done|]. cbn [bind] in Hrun. by subst r.
Qed.

(** The walk of a request that does not end in RecursionError gets by with
    the recursion limit one above the number of keys of the tier map. *)
Lemma for_each_threshold depth tiers o r :
  ok o →
  for_each (add_tier test_tiers depth) tiers o = r → r ≠ Raise RecursionError →
  for_each (add_tier test_tiers (S (length keys))) tiers o = r.
Proof.
  revert o. induction tiers as [|t tiers IH]; intros o Hok Hrun Hr; [done|].
  rewrite for_each_cons in *.
  destruct (add_tier test_tiers depth t o) as [o1|e] eqn:Ht.
  - destruct (add_tier_threshold depth t o [] (Ok o1) Hok I (NoDup_nil_2) Ht)
      as [Ht' _]; [done|].
    change (S (length keys) - length (@nil string))%nat with (S (length keys)) in Ht'.
    rewrite Ht'. apply IH; [|done..].
    by destruct (add_tier_ok test_tiers _ _ _ _ Hok Ht).
  - destruct (add_tier_threshold depth t o [] (Raise e) Hok I (NoDup_nil_2) Ht)
      as [Ht' _]; [by subst r|].
    change (S (length keys) - length (@nil string))%nat with (S (length keys)) in Ht'.
    by rewrite Ht'.
Qed.

(** Above the number of keys of the tier map the recursion limit does not
    matter. *)
Lemma for_each_limit_free depth depth' tiers :
  (length keys < depth)%nat → (length keys < depth')%nat →
  for_each (add_tier test_tiers depth) tiers [] =
  for_each (add_tier test_tiers depth') tiers [].
Proof.
  assert (∀ d d' r, (length keys < d')%nat →
            for_each (add_tier test_tiers d) tiers [] = r →
            r ≠ Raise RecursionError →
            for_each (add_tier test_tiers d') tiers [] = r) as Hmove.
  { intros d d' r Hd' Hrun Hr.
    apply (for_each_threshold d) in Hrun; [|constructor|done].
    eapply for_each_mono; [|exact Hrun|done].
    intros x s r'. apply add_tier_mono_le. lia. }
  intros Hd Hd'.
  destruct (for_each (add_tier test_tiers depth) tiers []) as [plan|e] eqn:Hrun.
  { symmetry. by eapply Hmove. }
  destruct (RecursionError_or_not e) as [-> | He].
  2:{ symmetry. eapply Hmove; [done..|congruence]. }
  destruct (for_each (add_tier test_tiers depth') tiers []) as [plan|e] eqn:Hrun'.
  { apply (Hmove depth' depth) in Hrun'; [congruence | done..]. }
  destruct (RecursionError_or_not e) as [-> | He]; [done|].
  apply (Hmove depth' depth) in Hrun'; [congruence | done | congruence].
Qed.

End Threshold.

(** ** Events of the loop *)

Section MoreRuns.

Variable sys_executable : string.
Variable test_tiers : value.
Local Abbreviation runs := (loop_run sys_executable test_tiers).

Lemma loop_run_event plan ok evs r i e :
  runs plan ok evs r → evs !! i = Some e →
  plan !! i = Some (event_tier e) ∧ event_sound sys_executable test_tiers e.
Proof.
  intros Hrun. revert i.
  induction Hrun; intros [|i] Hi; simpl in Hi; try done;
    try (injection Hi as <-; simpl; by eauto);
    try (by apply (IHHrun i)).
Qed.

(** A tier whose command cannot be built or launched is the last of the
    run, which ends in an exception. *)
Lemma loop_run_crash plan ok evs r i e :
  runs plan ok evs r → evs !! i = Some e →
  (∃ t, e = NotLaunched t) ∨ (∃ t cmd, e = Invoked t cmd LaunchError) →
  length evs = S i ∧ ∃ x, r = Raise x.
Proof.
  intros Hrun. revert i.
  induction Hrun as [ok | t' rest ok e' He | t' rest ok evs r He Hrun IH
    | t' rest ok e' He Hcmd | t' rest ok cmd' o' e' He Hcmd Ho'
    | t' rest ok cmd' o' evs r He Hcmd Ho' Hrun IH
    | t' rest ok cmd' o' evs r He Hcmd Ho' Hc' Hrun IH | t' rest ok cmd' o' He Hcmd Ho' Hc'];
    intros [|i] Hi Hcrash; simpl in Hi; try done;
    try (injection Hi as <-);
    try (destruct (IH i Hi Hcrash) as [Hlen Hr]; simpl; by rewrite Hlen);
    try (by eauto);
    destruct Hcrash as [(? & [=]) | (? & ? & [= _ _ ->])]; done.
Qed.

(** A loop that ends with [overall_ok] true has gone through the whole
    plan. *)
Lemma loop_run_complete plan ok evs r :
  runs plan ok evs r → r = Ok true → event_tier <$> evs = plan.
Proof.
  induction 1 as [ok | t' rest ok e' He | t' rest ok evs r He Hrun IH
    | t' rest ok e' He Hcmd | t' rest ok cmd' o' e' He Hcmd Ho'
    | t' rest ok cmd' o' evs r He Hcmd Ho' Hrun IH
    | t' rest ok cmd' o' evs r He Hcmd Ho' Hc' Hrun IH | t' rest ok cmd' o' He Hcmd Ho' Hc'];
    intros Hr; try done; simpl; f_equal; auto.
Qed.

End MoreRuns.

Section MoreLoop.

Variable sys_executable : string.
Variable World : Type.
Variable subprocess_run : list string → World → outcome * World.
Local Abbreviation loop := (tier_loop sys_executable World subprocess_run).

Lemma tier_loop_disabled test_tiers plan ok w :
  (∀ t, t ∈ plan → tier_flag test_tiers t "default_enabled" true = Ok false) →
  loop test_tiers plan ok w = (Ok ok, Skipped <$> plan, w).
Proof.
  induction plan as [|t plan IH]; intros Hall; [done|].
  assert (tier_flag test_tiers t "default_enabled" true = Ok false) as Ht
    by (apply Hall; by apply elem_of_cons; left).
  simpl. unfold tier_flag in Ht.
  destruct (dict_item test_tiers t) as [tier_cfg|]; [|done]. simpl in Ht.
  destruct (dict_get tier_cfg "default_enabled" (VBool true)) as [en|]; [|done].
  injection Ht as ->. simpl. rewrite IH; [done|].
  intros t' Ht'. apply Hall. by apply elem_of_cons; right.
Qed.

Lemma replays_app log1 log2 (w w1 w' : World) :
  replays subprocess_run log1 w w1 → replays subprocess_run log2 w1 w' →
  replays subprocess_run (log1 ++ log2) w w'.
Proof. induction 1; simpl; intros; [done | constructor; auto ..| econstructor; eauto]. Qed.

Lemma run_tier_replays t tier_cfg w r evs w' :
  run_tier sys_executable World subprocess_run t tier_cfg w = (r, evs, w') →
  replays subprocess_run evs w w'.
Proof.
  unfold run_tier. destruct (bind _ _) as [cmd|e].
  - destruct (subprocess_run cmd w) as [o w1] eqn:Hrun.
    destruct o; intros [= <- <- <-]; (econstructor; [exact Hrun | constructor]).
  - intros [= <- <- <-]. repeat constructor.
Qed.

Lemma tier_loop_replays test_tiers plan ok w r log w' :
  loop test_tiers plan ok w = (r, log, w') → replays subprocess_run log w w'.
Proof.
  revert ok w r log w'. induction plan as [|t plan IH]; intros ok w r log w' H.
  - injection H as <- <- <-. constructor.
  - simpl in H.
    destruct (dict_item test_tiers t) as [tier_cfg|];
      [|injection H as <- <- <-; constructor].
    destruct (dict_get tier_cfg "default_enabled" (VBool true)) as [en|];
      [|injection H as <- <- <-; constructor].
    destruct (negb (truthy en)).
    { destruct (loop test_tiers plan ok w) as [[r1 log1] w1] eqn:Hrest.
      injection H as <- <- <-. constructor. by eapply IH. }
    destruct (run_tier _ _ _ t tier_cfg w) as [[r1 evs] w1] eqn:Hrun.
    apply run_tier_replays in Hrun.
    destruct r1 as [[|]|].
    + destruct (loop test_tiers plan ok w1) as [[r2 log2] w2] eqn:Hrest.
      injection H as <- <- <-. eapply replays_app; eauto.
    + destruct (dict_get tier_cfg "critical" (VBool false)) as [cr|];
        [|by injection H as <- <- <-].
      destruct (truthy cr); [by injection H as <- <- <-|].
      destruct (loop test_tiers plan false w1) as [[r2 log2] w2] eqn:Hrest.
      injection H as <- <- <-. eapply replays_app; eauto.
    + by injection H as <- <- <-.
Qed.

Lemma replays_nothing log (w w' : World) :
  replays subprocess_run log w w' → (∀ t, ¬ invoked t log) → w' = w.
Proof.
  induction 1 as [| | |t cmd o log w w1 w' Hrun _ _]; intros Hnone; auto.
  - apply IHreplays. intros t' (cmd & o & Hin). apply (Hnone t').
    exists cmd, o. by apply elem_of_cons; right.
  - apply IHreplays. intros t' (cmd & o & Hin). apply (Hnone t').
    exists cmd, o. by apply elem_of_cons; right.
  - destruct (Hnone t). exists cmd, o. by apply elem_of_cons; left.
Qed.

End MoreLoop.

(** * The properties of the specification *)

(** ** Dependency expander *)

(** C1.  For a tier map and a requested list of tier names all of whose
    transitive dependencies are defined, every plan [expand_dependencies]
    returns holds each requested tier and every transitive dependency exactly
    once (and nothing else), and every name a tier of the plan depends on
    stands at a strictly earlier position than the tier.  A plan is returned
    whenever no dependency cycle can be reached from the request and the
    recursion limit exceeds the number of tiers of the map. *)
Theorem expand_dependencies_plan cfg test_tiers names :
  dict_get cfg "test_tiers" (VDict []) = Ok test_tiers →
  (∀ x, reachable test_tiers (VStr <$> names) x → defined test_tiers x) →
  (∀ depth plan,
     expand_dependencies depth cfg (VList (VStr <$> names)) = Ok plan →
     NoDup plan ∧
     (∀ x, reachable test_tiers (VStr <$> names) x → ∃ s, x = VStr s ∧ s ∈ plan) ∧
     (∀ s, s ∈ plan → reachable test_tiers (VStr <$> names) (VStr s)) ∧
     (∀ i T deps d,
        plan !! i = Some T → tier_deps test_tiers (VStr T) = Ok deps → d ∈ deps →
        ∃ s j, d = VStr s ∧ (j < i)%nat ∧ plan !! j = Some s)) ∧
  (acyclic_from test_tiers (VStr <$> names) →
   ∀ depth, (length (tier_keys test_tiers) < depth)%nat →
     ∃ plan, expand_dependencies depth cfg (VList (VStr <$> names)) = Ok plan).
Proof.
  intros Hcfg Hdef. split.
  - intros depth plan Hrun.
    rewrite (expand_dependencies_unfold depth cfg test_tiers
               (VList (VStr <$> names)) (VStr <$> names) Hcfg eq_refl) in Hrun.
    by apply for_each_plan in Hrun as [_ Hplan].
  - intros Hacyc depth Hdepth.
    rewrite (expand_dependencies_unfold depth cfg test_tiers
               (VList (VStr <$> names)) (VStr <$> names) Hcfg eq_refl).
    destruct (for_each _ _ _) as [plan|e] eqn:Hrun; [by exists plan|].
    pose proof (for_each_defined _ _ _ _ _ Hdef Hrun) as ->.
    by apply for_each_terminates in Hrun.
Qed.

Lemma expand_dependencies_plan_witness :
  (∀ x, reachable chain_tiers (VStr <$> ["scenario"; "unit"]) x →
        defined chain_tiers x) ∧
  expand_dependencies 4 chain_cfg (VList (VStr <$> ["scenario"; "unit"])) =
    Ok ["unit"; "integration"; "scenario"] ∧
  NoDup ["unit"; "integration"; "scenario"] ∧
  ∃ plan, expand_dependencies 9 chain_cfg (VList (VStr <$> ["scenario"; "unit"])) = Ok plan.
Proof.
  assert (∀ x, reachable chain_tiers (VStr <$> ["scenario"; "unit"]) x →
               defined chain_tiers x) as Hdef.
  { apply (plan_defined chain_tiers 4 _ ["unit"; "integration"; "scenario"]).
    reflexivity. }
  destruct (expand_dependencies_plan chain_cfg chain_tiers ["scenario"; "unit"]
              eq_refl Hdef) as [Hplan Hreturns].
  split; [exact Hdef|]. split; [reflexivity|]. split.
  - apply (Hplan 4%nat). reflexivity.
  - apply Hreturns.
    + apply (plan_acyclic chain_tiers 4 _ ["unit"; "integration"; "scenario"]).
      reflexivity.
    + simpl. lia.
Defined.

(** C7.  Duplicate requests change nothing: a request list and the list with
    its duplicates removed (every name kept where it comes first, so that
    the list has the same names and none twice) give the same result, the same
    plan or the same failure, at every recursion limit. *)
Theorem expand_dependencies_duplicates depth cfg names :
  expand_dependencies depth cfg (VList (VStr <$> names)) =
    expand_dependencies depth cfg (VList (VStr <$> remove_duplicates names)) ∧
  NoDup (remove_duplicates names) ∧
  (∀ x, x ∈ remove_duplicates names ↔ x ∈ names).
Proof.
  split_and!.
  - unfold expand_dependencies, remove_duplicates.
    destruct (dict_get cfg "test_tiers" (VDict [])) as [test_tiers|]; [|done].
    simpl. destruct depth as [|depth].
    + by destruct names.
    + apply for_each_dedup; [constructor | by intros x ?%elem_of_nil].
  - apply dedup_from_NoDup.
  - intros x. unfold remove_duplicates. rewrite elem_of_dedup_from. set_solver.
Qed.

(** C9.  Every tier name of a plan [expand_dependencies] returns is a key of
    [test_tiers] whose value is a mapping that is not empty, so that the
    lookup [test_tiers[tier_name]] of [main] and the reading of the flags of
    the tier succeed. *)
Theorem plan_tiers_defined depth cfg tiers plan test_tiers name :
  expand_dependencies depth cfg tiers = Ok plan →
  dict_get cfg "test_tiers" (VDict []) = Ok test_tiers →
  name ∈ plan →
  name ∈ tier_keys test_tiers ∧
  (∃ items, dict_item test_tiers name = Ok (VDict items) ∧
            truthy (VDict items) = true) ∧
  (∃ b, tier_flag test_tiers name "default_enabled" true = Ok b) ∧
  (∃ b, tier_flag test_tiers name "critical" false = Ok b).
Proof.
  intros Hrun Hcfg Hname.
  apply expand_dependencies_Ok in Hrun as (tt & ts & Htt & _ & Hrun).
  rewrite Hcfg in Htt. injection Htt as <-.
  apply for_each_plan in Hrun as [Hok _].
  destruct (ordered_ok_closed _ _ _ Hok Hname) as (deps & Hdeps & _).
  split_and!.
  - by eapply tier_deps_key.
  - by eapply tier_deps_item.
  - by eapply tier_deps_flag.
  - by eapply tier_deps_flag.
Qed.

Lemma plan_tiers_defined_witness :
  "integration" ∈ tier_keys chain_tiers ∧
  (∃ items, dict_item chain_tiers "integration" = Ok (VDict items) ∧
            truthy (VDict items) = true) ∧
  (∃ b, tier_flag chain_tiers "integration" "default_enabled" true = Ok b) ∧
  (∃ b, tier_flag chain_tiers "integration" "critical" false = Ok b).
Proof.
  apply (plan_tiers_defined 4 chain_cfg (VList [VStr "scenario"])
           ["unit"; "integration"; "scenario"]).
  - reflexivity.
  - reflexivity.
  - set_solver.
Defined.

(** C10.  A tier whose key is in [test_tiers] with a falsy value (an empty
    mapping, null) is treated like a tier that is not there: [add_tier]
    raises the same "not defined" configuration error for it, expansion gives
    the same result as over the tier map without the key, no plan is returned
    for a request that names the tier, and [main] then exits with status 1
    before any tier runs. *)
Theorem falsy_tier_not_defined cfg cfg' items name meta :
  dict_get cfg "test_tiers" (VDict []) = Ok (VDict items) →
  dict_get cfg' "test_tiers" (VDict []) = Ok (VDict (remove_key name items)) →
  assoc name items = Some meta →
  truthy meta = false →
(name ∉ tier_keys (VDict (remove_key name items))) ∧
  (∀ depth o, name ∉ o →
     add_tier (VDict items) (S depth) (VStr name) o =
       Raise (ConfigError (TierNotDefined (VStr name))) ∧
     add_tier (VDict (remove_key name items)) (S depth) (VStr name) o =
       Raise (ConfigError (TierNotDefined (VStr name)))) ∧
  (∀ depth tiers,
     expand_dependencies depth cfg tiers = expand_dependencies depth cfg' tiers) ∧
  (∀ depth names plan, name ∈ names →
     expand_dependencies depth cfg (VList (VStr <$> names)) ≠ Ok plan) ∧
  (∀ sys_executable yaml_installed World subprocess_run config combo depth names
     (w : World),
     load_codex_config yaml_installed config = Ok cfg →
     collect_tiers_for_combo cfg combo = Ok (VList (VStr <$> names)) →
     name ∈ names →
     main sys_executable yaml_installed World subprocess_run config combo depth w =
       (1, [], w)).
Proof.
  intros Hcfg Hcfg' Hname Hfalsy.
  assert (∀ depth names plan, name ∈ names →
            expand_dependencies depth cfg (VList (VStr <$> names)) ≠ Ok plan) as Hno.
  { intros depth names plan Hin Hrun.
    destruct (expand_dependencies_requested _ _ _ _ _ name Hcfg Hrun)
      as (_ & [deps Hdeps] & _); [by apply reachable_requested|].
    rewrite (tier_deps_falsy _ _ _ Hname Hfalsy) in Hdeps. done. }
  split_and!.
  - unfold tier_keys, remove_key. intros Hin.
    apply list_elem_of_fmap in Hin as ([k v] & -> & Hin).
    apply list_elem_of_filter in Hin as [Hne _]. by apply Hne.
  - intros depth o Ho. rewrite !add_tier_str, bool_decide_eq_false_2 by done.
    rewrite (tier_deps_falsy _ _ _ Hname Hfalsy), tier_deps_absent; [done|].
    by rewrite assoc_remove_key, bool_decide_eq_true_2.
  - intros depth tiers. unfold expand_dependencies. rewrite Hcfg, Hcfg'. simpl.
    destruct (py_iter tiers) as [ts|]; [|done]. simpl.
    apply for_each_ext. intros x o. apply add_tier_ext.
    intros t. by eapply tier_deps_remove_key.
  - done.
  - intros sys_executable yaml_installed World subprocess_run config combo depth
      names w Hload Hreq Hin.
    destruct (expand_dependencies depth cfg (VList (VStr <$> names)))
      as [plan|e] eqn:Hrun; [by apply Hno in Hrun|].
    eapply main_abort, resolve_plan_Raise; eauto.
Qed.

Lemma falsy_tier_not_defined_witness :
  (∀ depth, expand_dependencies (S depth) falsy_cfg (VList [VStr "empty"]) =
            Raise (ConfigError (TierNotDefined (VStr "empty")))) ∧
  demo_main falsy_cfg "odd" [] = (1, [], []).
Proof.
  destruct (falsy_tier_not_defined falsy_cfg
              (VDict [("test_tiers", VDict (remove_key "empty" falsy_items))])
              falsy_items "empty" (VDict []))
    as (_ & Hcall & _ & _ & Hmain); try reflexivity.
  split.
  - intros depth.
    change (expand_dependencies (S depth) falsy_cfg (VList [VStr "empty"]))
      with (for_each (add_tier (VDict falsy_items) (S depth)) [VStr "empty"] []).
    rewrite for_each_cons. destruct (Hcall depth []) as [-> _]; [|done].
    by intros ?%elem_of_nil.
  - apply (Hmain "python" true (list outcome) scripted (File (Some falsy_cfg) None)
             "odd" 100%nat ["unit"; "empty"] []); [reflexivity | reflexivity |].
    set_solver.
Defined.

(** C6, as the claim states it, fails where the walk meets a dependency cycle
    before the tier that is not defined: [a] depends on [a] and then on
    [ghost]; the request for [a] reaches [ghost], which is no key of the tier
    map, but the expansion ends in RecursionError at every recursion limit
    and never in a configuration error. *)
Lemma unknown_tier_counterexample :
  reachable cycle_first_tiers [VStr "a"] (VStr "ghost") ∧
("ghost" ∉ tier_keys cycle_first_tiers) ∧
  (∀ depth, expand_dependencies depth cycle_first_cfg (VList [VStr "a"]) =
            Raise RecursionError) ∧
  (∀ depth msg, expand_dependencies depth cycle_first_cfg (VList [VStr "a"]) ≠
                Raise (ConfigError msg)).
Proof.
  assert (∀ depth, add_tier cycle_first_tiers depth (VStr "a") [] =
                   Raise RecursionError) as Hrec.
  { induction depth as [|depth IH]; [done|].
    rewrite add_tier_str, bool_decide_eq_false_2 by (by intros ?%elem_of_nil).
    change (tier_deps cycle_first_tiers (VStr "a"))
      with (Ok (A:=list value) [VStr "a"; VStr "ghost"]).
    cbn [bind]. by rewrite for_each_cons, IH. }
  assert (∀ depth, expand_dependencies depth cycle_first_cfg (VList [VStr "a"]) =
                   Raise RecursionError) as Hexp.
  { intros depth.
    change (expand_dependencies depth cycle_first_cfg (VList [VStr "a"]))
      with (for_each (add_tier cycle_first_tiers depth) [VStr "a"] []).
    rewrite for_each_cons. by rewrite Hrec. }
  split_and!.
  - exists (VStr "a"). split; [set_solver|]. apply rtc_once.
    exists [VStr "a"; VStr "ghost"]. split; [reflexivity | set_solver].
  - simpl. set_solver.
  - exact Hexp.
  - intros depth msg. by rewrite Hexp.
Qed.

(** C6, amended.  For a requested list that reaches a tier name absent from
    the tier map, [expand_dependencies] returns no plan at any recursion
    limit and [main] exits with status 1 before any tier is run.  At every
    recursion limit the failure is the "not defined" configuration error of
    a tier the request reaches and [add_tier] does not get past, unless it is
    RecursionError or the exception of a malformed entry the request
    reaches.  RecursionError at a recursion limit above the number of tiers
    of the map means that the walk ran into a dependency cycle: a cycle can
    be reached from the request and the failure is RecursionError at every
    recursion limit; at a lower limit it can also mean that the limit was
    too low.  A failure that is not RecursionError is the failure at every
    higher recursion limit.  So the failure is the configuration error when
    no dependency cycle can be reached, no entry on the way is malformed and
    the recursion limit exceeds the number of tiers of the map. *)
Theorem unknown_tier_fails cfg test_tiers names ghost :
  dict_get cfg "test_tiers" (VDict []) = Ok test_tiers →
  reachable test_tiers (VStr <$> names) (VStr ghost) →
  ghost ∉ tier_keys test_tiers →
  (∀ depth plan, expand_dependencies depth cfg (VList (VStr <$> names)) ≠ Ok plan) ∧
  (∀ sys_executable yaml_installed World subprocess_run config combo depth
     (w : World),
     load_codex_config yaml_installed config = Ok cfg →
     collect_tiers_for_combo cfg combo = Ok (VList (VStr <$> names)) →
     main sys_executable yaml_installed World subprocess_run config combo depth w =
       (1, [], w)) ∧
  (∀ depth, ∃ e,
     expand_dependencies depth cfg (VList (VStr <$> names)) = Raise e ∧
     ((∃ x, reachable test_tiers (VStr <$> names) x ∧
            ¬ defined test_tiers x ∧
            tier_deps test_tiers x = Raise (ConfigError (TierNotDefined x)) ∧
            e = ConfigError (TierNotDefined x)) ∨
      (e = RecursionError ∧
       (acyclic_from test_tiers (VStr <$> names) →
        (depth ≤ length (tier_keys test_tiers))%nat) ∧
       ((length (tier_keys test_tiers) < depth)%nat →
        ∀ depth', expand_dependencies depth' cfg (VList (VStr <$> names)) =
                  Raise RecursionError)) ∨
      (e = Uncaught ∧
       ∃ x, reachable test_tiers (VStr <$> names) x ∧
            tier_deps test_tiers x = Raise Uncaught))) ∧
  (∀ depth depth' e,
     expand_dependencies depth cfg (VList (VStr <$> names)) = Raise e →
     e ≠ RecursionError → (depth ≤ depth')%nat →
     expand_dependencies depth' cfg (VList (VStr <$> names)) = Raise e) ∧
  (acyclic_from test_tiers (VStr <$> names) →
   (∀ x, reachable test_tiers (VStr <$> names) x →
         tier_deps test_tiers x ≠ Raise Uncaught) →
   ∀ depth, (length (tier_keys test_tiers) < depth)%nat →
     ∃ x, reachable test_tiers (VStr <$> names) x ∧
          ¬ defined test_tiers x ∧
          expand_dependencies depth cfg (VList (VStr <$> names)) =
            Raise (ConfigError (TierNotDefined x))).
Proof.
  intros Hcfg Hghost Habsent.
  assert (∀ depth, expand_dependencies depth cfg (VList (VStr <$> names)) =
                   for_each (add_tier test_tiers depth) (VStr <$> names) []) as Hexp.
  { intros depth. by apply expand_dependencies_unfold. }
  assert (∀ depth plan,
            expand_dependencies depth cfg (VList (VStr <$> names)) ≠ Ok plan) as Hno.
  { intros depth plan Hrun.
    destruct (expand_dependencies_requested _ _ _ _ _ ghost Hcfg Hrun)
      as (_ & Hdef & _); [done|].
    by apply absent_not_defined in Hdef. }
  assert (∀ depth depth' e,
            expand_dependencies depth cfg (VList (VStr <$> names)) = Raise e →
            e ≠ RecursionError → (depth ≤ depth')%nat →
            expand_dependencies depth' cfg (VList (VStr <$> names)) = Raise e)
    as Hsame.
  { intros depth depth' e Hrun He Hle. rewrite Hexp in *.
    eapply for_each_mono; [|exact Hrun|congruence].
    intros x s r. by apply add_tier_mono_le. }
  assert (∀ depth depth',
            (length (tier_keys test_tiers) < depth)%nat →
            expand_dependencies depth cfg (VList (VStr <$> names)) =
              Raise RecursionError →
            expand_dependencies depth' cfg (VList (VStr <$> names)) =
              Raise RecursionError) as Hcycle.
  { intros depth depth' Hdepth Hrun.
    destruct (expand_dependencies depth' cfg (VList (VStr <$> names)))
      as [plan|e] eqn:Hrun'; [by apply Hno in Hrun'|].
    destruct (RecursionError_or_not e) as [-> | He]; [done|]. exfalso.
    destruct (decide (depth' ≤ depth)%nat) as [Hle | Hgt].
    - rewrite (Hsame depth' depth e Hrun' He Hle) in Hrun. congruence.
    - rewrite Hexp in Hrun, Hrun'.
      rewrite (for_each_limit_free test_tiers depth depth') in Hrun by lia.
      congruence. }
  assert (∀ depth, ∃ e,
            expand_dependencies depth cfg (VList (VStr <$> names)) = Raise e ∧
            ((∃ x, reachable test_tiers (VStr <$> names) x ∧
                   ¬ defined test_tiers x ∧
                   tier_deps test_tiers x = Raise (ConfigError (TierNotDefined x)) ∧
                   e = ConfigError (TierNotDefined x)) ∨
             (e = RecursionError ∧
              (acyclic_from test_tiers (VStr <$> names) →
               (depth ≤ length (tier_keys test_tiers))%nat) ∧
              ((length (tier_keys test_tiers) < depth)%nat →
               ∀ depth', expand_dependencies depth' cfg (VList (VStr <$> names)) =
                         Raise RecursionError)) ∨
             (e = Uncaught ∧
              ∃ x, reachable test_tiers (VStr <$> names) x ∧
                   tier_deps test_tiers x = Raise Uncaught))) as Hkind.
  { intros depth.
    destruct (expand_dependencies depth cfg (VList (VStr <$> names)))
      as [plan|e] eqn:Hrun; [by apply Hno in Hrun|].
    exists e. split; [done|].
    destruct (RecursionError_or_not e) as [-> | He].
    { right. left. split_and!; [done | |].
      - intros Hacyc.
        destruct (decide (depth ≤ length (tier_keys test_tiers))%nat) as [|Hlt];
          [done|].
        exfalso. rewrite Hexp in Hrun.
        eapply for_each_terminates; [exact Hacyc | | exact Hrun]. lia.
      - intros Hdepth depth'. by apply (Hcycle depth). }
    rewrite Hexp in Hrun.
    apply for_each_Raise in Hrun as (t & o & Ht & Hrun).
    destruct (add_tier_Raise _ _ _ _ _ Hrun He) as (x & Hx & Hfail).
    assert (reachable test_tiers (VStr <$> names) x) as Hreach by (by exists t).
    destruct e as [msg| |]; [|done|].
    - left. exists x.
      pose proof (tier_deps_ConfigError _ _ _ Hfail) as ->.
      split_and!; [done | | done..].
      intros [deps Hdeps]. congruence.
    - right. right. split; [done|]. by exists x. }
  split_and!.
  - done.
  - intros sys_executable yaml_installed World subprocess_run config combo depth
      w Hload Hreq.
    destruct (expand_dependencies depth cfg (VList (VStr <$> names)))
      as [plan|e] eqn:Hrun; [by apply Hno in Hrun|].
    eapply main_abort, resolve_plan_Raise; eauto.
  - done.
  - done.
  - intros Hacyc Hwf depth Hdepth.
    destruct (Hkind depth)
      as (e & Hrun & [(x & Hx & Hnd & _ & ->) | [(-> & Hlim & _) | [-> Hbad]]]).
    + by exists x.
    + specialize (Hlim Hacyc). lia.
    + destruct Hbad as (x & Hx & Hbad). by apply Hwf in Hbad.
Qed.

Lemma unknown_tier_fails_witness :
  (reachable ghost_tiers (VStr <$> ["unit"]) (VStr "ghost") ∧
   ("ghost" ∉ tier_keys ghost_tiers) ∧
   (∀ depth plan, expand_dependencies depth ghost_cfg (VList [VStr "unit"]) ≠ Ok plan) ∧
   demo_main ghost_cfg "smoke" [] = (1, [], []) ∧
   ∃ x, reachable ghost_tiers (VStr <$> ["unit"]) x ∧
        ¬ defined ghost_tiers x ∧
        expand_dependencies 100 ghost_cfg (VList [VStr "unit"]) =
          Raise (ConfigError (TierNotDefined x))) ∧
  (reachable ghost_first_tiers (VStr <$> ["a"]) (VStr "ghost") ∧
   ("ghost" ∉ tier_keys ghost_first_tiers) ∧
   ∀ depth, (2 ≤ depth)%nat →
     expand_dependencies depth ghost_first_cfg (VList [VStr "a"]) =
       Raise (ConfigError (TierNotDefined (VStr "ghost")))).
Proof.
  split.
  - assert (reachable ghost_tiers (VStr <$> ["unit"]) (VStr "ghost")) as Hreach.
    { exists (VStr "unit"). split; [set_solver|]. apply rtc_once.
      exists [VStr "ghost"]. split; [reflexivity | set_solver]. }
    assert ("ghost" ∉ tier_keys ghost_tiers) as Habsent by (simpl; set_solver).
    destruct (unknown_tier_fails ghost_cfg ghost_tiers ["unit"] "ghost"
                eq_refl Hreach Habsent) as (Hno & Hmain & Hkind & _).
    split_and!; [done | done | exact Hno | |].
    + by apply (Hmain "python" true (list outcome) scripted
                  (File (Some ghost_cfg) None) "smoke" 100%nat []).
    + destruct (Hkind 100%nat) as (e & Hrun & Hcases).
      pose proof Hrun as Heq.
      change (expand_dependencies 100 ghost_cfg (VList (VStr <$> ["unit"])))
        with (Raise (A:=list string) (ConfigError (TierNotDefined (VStr "ghost"))))
        in Heq.
      injection Heq as <-.
      destruct Hcases as [(x & Hx & Hnd & _ & Heq) | [[Heq _] | [Heq _]]];
        [|discriminate Heq..].
      exists x. rewrite <- Heq. split_and!; [done..|exact Hrun].
  - assert (reachable ghost_first_tiers (VStr <$> ["a"]) (VStr "ghost")) as Hreach.
    { exists (VStr "a"). split; [set_solver|]. apply rtc_once.
      exists [VStr "ghost"; VStr "a"]. split; [reflexivity | set_solver]. }
    assert ("ghost" ∉ tier_keys ghost_first_tiers) as Habsent by (simpl; set_solver).
    destruct (unknown_tier_fails ghost_first_cfg ghost_first_tiers ["a"] "ghost"
                eq_refl Hreach Habsent) as (_ & _ & _ & Hsame & _).
    split_and!; [done | done |].
    intros depth Hdepth. by apply (Hsame 2%nat).
Defined.

(** C8, as the claim states it, fails where the walk meets a tier that is
    not defined before it closes the cycle: [a] depends on [ghost] and then
    on itself; [a] is on a cycle the request for [a] reaches, but from the
    recursion limit 2 on the expansion ends in the "not defined"
    configuration error, not in unbounded recursion. *)
Lemma no_cycle_detection_counterexample :
  reachable ghost_first_tiers [VStr "a"] (VStr "a") ∧
  on_cycle ghost_first_tiers (VStr "a") ∧
  ∀ depth, expand_dependencies (S (S depth)) ghost_first_cfg (VList [VStr "a"]) =
           Raise (ConfigError (TierNotDefined (VStr "ghost"))).
Proof.
  split_and!.
  - exists (VStr "a"). split; [set_solver | apply rtc_refl].
  - apply tc_once. exists [VStr "ghost"; VStr "a"]. split; [reflexivity | set_solver].
  - intros depth. reflexivity.
Qed.

(** C8, amended.  [expand_dependencies] detects no cycle.  When no
    dependency cycle can be reached from the requested tiers, it ends without
    RecursionError at every recursion limit above the number of tiers of the
    map.  When a cycle can be reached, it returns no plan at any recursion
    limit; and when moreover every tier the request reaches is defined, it
    ends in RecursionError at every recursion limit, never in a
    configuration error. *)
Theorem no_cycle_detection cfg test_tiers names :
  dict_get cfg "test_tiers" (VDict []) = Ok test_tiers →
  (acyclic_from test_tiers (VStr <$> names) →
   ∀ depth, (length (tier_keys test_tiers) < depth)%nat →
     expand_dependencies depth cfg (VList (VStr <$> names)) ≠ Raise RecursionError) ∧
  (∀ z, reachable test_tiers (VStr <$> names) z → on_cycle test_tiers z →
     (∀ depth plan,
        expand_dependencies depth cfg (VList (VStr <$> names)) ≠ Ok plan) ∧
     ((∀ x, reachable test_tiers (VStr <$> names) x → defined test_tiers x) →
      ∀ depth,
        expand_dependencies depth cfg (VList (VStr <$> names)) = Raise RecursionError)).
Proof.
  intros Hcfg.
  assert (∀ depth, expand_dependencies depth cfg (VList (VStr <$> names)) =
                   for_each (add_tier test_tiers depth) (VStr <$> names) []) as Hexp.
  { intros depth. by apply expand_dependencies_unfold. }
  split.
  - intros Hacyc depth Hdepth. rewrite Hexp. by apply for_each_terminates.
  - intros z Hz Hcyc.
    assert (∀ depth plan,
              expand_dependencies depth cfg (VList (VStr <$> names)) ≠ Ok plan) as Hno.
    { intros depth plan Hrun. rewrite Hexp in Hrun.
      by destruct (for_each_no_plan _ _ _ _ _ Hrun Hz). }
    split; [done|].
    intros Hdef depth.
    destruct (expand_dependencies depth cfg (VList (VStr <$> names)))
      as [plan|e] eqn:Hrun; [by apply Hno in Hrun|].
    rewrite Hexp in Hrun. by rewrite (for_each_defined _ _ _ _ _ Hdef Hrun).
Qed.

Lemma no_cycle_detection_witness :
  (∀ depth, expand_dependencies depth loop_cfg (VList [VStr "a"]) =
            Raise RecursionError) ∧
  (∀ depth, (3 < depth)%nat →
     expand_dependencies depth chain_cfg (VList [VStr "scenario"]) ≠
       Raise RecursionError).
Proof.
  destruct (no_cycle_detection loop_cfg loop_tiers ["a"] eq_refl) as [_ Hcycle].
  destruct (no_cycle_detection chain_cfg chain_tiers ["scenario"] eq_refl)
    as [Hacyclic _].
  split.
  - destruct (Hcycle (VStr "a")) as [_ Hrec].
    + exists (VStr "a"). split; [set_solver | apply rtc_refl].
    + apply (tc_l _ _ (VStr "b")); [|apply tc_once].
      * exists [VStr "b"]. split; [reflexivity | set_solver].
      * exists [VStr "a"]. split; [reflexivity | set_solver].
    + apply Hrec. intros x Hx.
      assert (x = VStr "a" ∨ x = VStr "b") as [-> | ->].
      { revert x Hx. apply reachable_closed.
        - intros t Ht. left. set_solver.
        - intros x y [-> | ->] (deps & Hdeps & Hy);
            injection Hdeps as <-; set_solver. }
      all: eexists; reflexivity.
  - apply Hacyclic.
    apply (plan_acyclic chain_tiers 4 _ ["unit"; "integration"; "scenario"]).
    reflexivity.
Defined.

(** ** Tier executor *)

Section Claims.

Variable sys_executable : string.
Variable yaml_installed : bool.
Variable World : Type.
Variable subprocess_run : list string → World → outcome * World.

(** C2.  The exit status of the process is 0 or 1, and the outcomes the log
    holds are those [subprocess.run] gave for the commands of the log, run
    one after the other in the world [main] started in.  When [main] gets to
    the loop, the status is 0 exactly when every tier the loop ran, skipped
    tiers excluded, succeeded, that is, its invocation returned the code 0: a
    nonzero code, an interruption and a command that cannot be built or
    launched all make it 1.  The tiers the loop ran are the enabled tiers of
    the plan, in its order, each with the command built for it, up to the
    tier the loop ended at, and with status 0 that is the whole plan.  When
    [main] does not get to the loop, no tier is run and the status is 1. *)
Theorem main_exit_status config combo depth (w : World) status log w' :
  main sys_executable yaml_installed World subprocess_run config combo depth w =
    (status, log, w') →
  (status = 0 ∨ status = 1) ∧
  replays subprocess_run log w w' ∧
  (∀ test_tiers plan,
     resolve_plan yaml_installed config combo depth = Ok (test_tiers, plan) →
     (status = 0 ↔ Forall succeeded (executed log)) ∧
     (∀ i e, log !! i = Some e →
        plan !! i = Some (event_tier e) ∧
        event_sound sys_executable test_tiers e) ∧
     (status = 0 → event_tier <$> log = plan)) ∧
  (∀ e, resolve_plan yaml_installed config combo depth = Raise e →
     status = 1 ∧ log = [] ∧ w' = w).
Proof.
  intros Hmain. split_and!.
  - unfold main in Hmain.
    destruct (resolve_plan yaml_installed config combo depth) as [[tt plan]|].
    + destruct (tier_loop sys_executable World subprocess_run tt plan true w)
        as [[[[|]|] evs] w1];
        injection Hmain as <- _ _; auto.
    + injection Hmain as <- _ _. auto.
  - unfold main in Hmain.
    destruct (resolve_plan yaml_installed config combo depth) as [[tt plan]|].
    + destruct (tier_loop sys_executable World subprocess_run tt plan true w)
        as [[r log0] w0] eqn:Hloop.
      apply tier_loop_replays in Hloop.
      by destruct r; injection Hmain as _ <- <-.
    + injection Hmain as _ <- <-. constructor.
  - intros test_tiers plan Hres.
    destruct (main_run sys_executable yaml_installed World subprocess_run
                _ _ _ w _ _ Hres) as (r & log0 & w0 & Hloop & Hmain').
    rewrite Hmain in Hmain'. injection Hmain' as -> <- <-.
    apply tier_loop_run in Hloop. split_and!.
    + rewrite exit_status_0.
      rewrite (loop_run_success _ _ _ _ _ _ Hloop); [naive_solver|].
      intros t Ht. eapply ordered_ok_flag; [|exact Ht].
      by eapply resolve_plan_ordered.
    + intros i e Hi. by eapply loop_run_event.
    + intros Hr%exit_status_0. by eapply loop_run_complete.
  - intros e Hres.
    rewrite (main_abort sys_executable yaml_installed World subprocess_run
               _ _ _ w _ Hres) in Hmain.
    by injection Hmain as <- <- <-.
Qed.

(** C3.  In a run of [main] over the plan [[a; b; c]] in which the tier [b]
    is critical and its invocation fails, the loop stops right after [b]:
    the run leaves an event for [a] and the failed invocation of [b] and
    nothing for [c], whose command is never invoked, and the process exits
    with status 1. *)
Theorem critical_short_circuit config combo depth (w : World) test_tiers a b c
    status log w' cmd o :
  resolve_plan yaml_installed config combo depth = Ok (test_tiers, [a; b; c]) →
  tier_flag test_tiers b "critical" false = Ok true →
  main sys_executable yaml_installed World subprocess_run config combo depth w =
    (status, log, w') →
  Invoked b cmd o ∈ log →
  success_of o = Ok false →
  status = 1 ∧
  (∃ ea, log = [ea; Invoked b cmd o] ∧ event_tier ea = a) ∧
  ¬ invoked c log ∧
  (∀ e, e ∈ log → event_tier e ≠ c).
Proof.
  intros Hres Hcrit Hmain Hb Ho.
  destruct (main_run sys_executable yaml_installed World subprocess_run
              _ _ _ w _ _ Hres) as (r & log0 & w0 & Hloop & Hmain').
  rewrite Hmain in Hmain'. injection Hmain' as -> <- <-.
  apply tier_loop_run in Hloop.
  pose proof (ordered_ok_NoDup _ _ (resolve_plan_ordered _ _ _ _ _ _ Hres)) as Hnd.
  destruct (second_of_three _ _ _ _ _ _ _ _ _ Hloop Hnd Hb eq_refl)
    as (H1 & ea & H0 & Ha).
  destruct (loop_run_stop _ _ _ _ _ _ _ _ _ _ Hloop H1 Ho Hcrit) as [Hlen ->].
  destruct log as [|e0 [|e1 [|e2 log]]]; try done.
  simpl in H0, H1. injection H0 as ->. injection H1 as ->.
  assert (∀ e, e ∈ [ea; Invoked b cmd o] → event_tier e ≠ c) as Hnot.
  { apply NoDup_cons in Hnd as [Hab [Hbc _]%NoDup_cons].
    intros e [-> | [-> | ?%elem_of_nil]%elem_of_cons]%elem_of_cons;
      simpl; [| |done]; set_solver. }
  split_and!; [done | by exists ea | | done].
  intros (cmd' & o' & Hin). by apply (Hnot _ Hin).
Qed.


(** C5.  A tier of the plan whose [default_enabled] flag is false is never
    invoked: the only event a run of the loop leaves for it is the skip.
    The skip changes nothing else: the loop over the plan without the tier
    ends with the same result in the same world after running the same
    tiers with the same outcomes. *)
Theorem skip_semantics test_tiers l1 t l2 ok (w : World) :
  tier_flag test_tiers t "default_enabled" true = Ok false →
  ∃ r log log' w',
    tier_loop sys_executable World subprocess_run test_tiers (l1 ++ t :: l2) ok w =
      (r, log, w') ∧
    ¬ invoked t log ∧
    (∀ e, e ∈ log → event_tier e = t → e = Skipped t) ∧
    tier_loop sys_executable World subprocess_run test_tiers (l1 ++ l2) ok w =
      (r, log', w') ∧
    executed log = executed log'.
Proof.
  intros Ht.
  destruct (tier_loop_skip sys_executable World subprocess_run
              test_tiers l1 t l2 ok w Ht) as (r & log & log' & w' & Hrun & Hrun' & Hex).
  exists r, log, log', w'.
  assert (∀ e, e ∈ log → event_tier e = t → e = Skipped t) as Hskip.
  { intros e. eapply loop_run_skip; [|exact Ht]. by eapply tier_loop_run. }
  split_and!; try done.
  intros (cmd & o & Hin). by specialize (Hskip _ Hin eq_refl).
Qed.

End Claims.

Lemma main_exit_status_witness :
  (demo_main pair_cfg "pair" [] =
     (0,
      [Invoked "lint" ["python"; "-m"; "pytest"; "tests"] (Returned 0);
       Invoked "unit" ["python"; "-m"; "pytest"; "tests"] (Returned 0)],
      []) ∧
   Forall succeeded
     (executed
        [Invoked "lint" ["python"; "-m"; "pytest"; "tests"] (Returned 0);
         Invoked "unit" ["python"; "-m"; "pytest"; "tests"] (Returned 0)])) ∧
  (demo_main soft_cfg "nightly" [Returned 0; Returned 1] =
     (1,
      [Invoked "lint" ["python"; "-m"; "pytest"; "tests"] (Returned 0);
       Invoked "unit" ["python"; "-m"; "pytest"; "tests"] (Returned 1);
       Skipped "stress"],
      []) ∧
   ¬ Forall succeeded
       (executed
          [Invoked "lint" ["python"; "-m"; "pytest"; "tests"] (Returned 0);
           Invoked "unit" ["python"; "-m"; "pytest"; "tests"] (Returned 1);
           Skipped "stress"]) ∧
   replays scripted
     [Invoked "lint" ["python"; "-m"; "pytest"; "tests"] (Returned 0);
      Invoked "unit" ["python"; "-m"; "pytest"; "tests"] (Returned 1);
      Skipped "stress"]
     [Returned 0; Returned 1] []).
Proof.
  split.
  - split; [reflexivity|].
    destruct (main_exit_status "python" true (list outcome) scripted
                (File (Some pair_cfg) None) "pair" 100%nat [] 0
                [Invoked "lint" ["python"; "-m"; "pytest"; "tests"] (Returned 0);
                 Invoked "unit" ["python"; "-m"; "pytest"; "tests"] (Returned 0)]
                [] eq_refl) as (_ & _ & Hrun & _).
    destruct (Hrun soft_tiers ["lint"; "unit"] eq_refl) as (Hiff & _).
    by apply Hiff.
  - split; [reflexivity|].
    destruct (main_exit_status "python" true (list outcome) scripted
                (File (Some soft_cfg) None) "nightly" 100%nat
                [Returned 0; Returned 1] 1
                [Invoked "lint" ["python"; "-m"; "pytest"; "tests"] (Returned 0);
                 Invoked "unit" ["python"; "-m"; "pytest"; "tests"] (Returned 1);
                 Skipped "stress"]
                [] eq_refl) as (_ & Hreplay & Hrun & _).
    destruct (Hrun soft_tiers ["lint"; "unit"; "stress"] eq_refl) as (Hiff & _).
    split; [|exact Hreplay].
    intros Hall. by apply Hiff in Hall.
Defined.

Lemma critical_short_circuit_witness :
  resolve_plan true (File (Some chain_cfg) None) "full" 100 =
    Ok (chain_tiers, ["unit"; "integration"; "scenario"]) ∧
  tier_flag chain_tiers "integration" "critical" false = Ok true ∧
  (demo_main chain_cfg "full" [Returned 0; Returned 2]).1.1 = 1 ∧
  ¬ invoked "scenario" (demo_main chain_cfg "full" [Returned 0; Returned 2]).1.2.
Proof.
  split; [reflexivity|]. split; [reflexivity|].
  destruct (critical_short_circuit "python" true (list outcome) scripted
              (File (Some chain_cfg) None) "full" 100%nat [Returned 0; Returned 2]
              chain_tiers "unit" "integration" "scenario"
              1
              [Invoked "unit" ["python"; "-m"; "pytest"; "tests"] (Returned 0);
               Invoked "integration"
                 ["python"; "-m"; "pytest"; "tests"; "-m"; "integration or scenario"]
                 (Returned 2)]
              []
              ["python"; "-m"; "pytest"; "tests"; "-m"; "integration or scenario"]
              (Returned 2))
    as (Hstatus & _ & Hnever & _);
    [reflexivity | reflexivity | reflexivity | set_solver | reflexivity |].
  split; [exact Hstatus | exact Hnever].
Defined.



Lemma skip_semantics_witness :
  tier_flag soft_tiers "stress" "default_enabled" true = Ok false ∧
  ∃ r log log' w',
    tier_loop "python" (list outcome) scripted soft_tiers
      (["lint"; "unit"] ++ "stress" :: []) true [Returned 0; Returned 1] =
      (r, log, w') ∧
    ¬ invoked "stress" log ∧
    (∀ e, e ∈ log → event_tier e = "stress" → e = Skipped "stress") ∧
    tier_loop "python" (list outcome) scripted soft_tiers
      (["lint"; "unit"] ++ []) true [Returned 0; Returned 1] = (r, log', w') ∧
    executed log = executed log'.
Proof.
  split; [reflexivity|].
  apply (skip_semantics "python" (list outcome) scripted soft_tiers
           ["lint"; "unit"] "stress" [] true [Returned 0; Returned 1]).
  reflexivity.
Defined.

(** ** Scenarios of the specification and further properties *)

(** Diamond: when [a] and [b] both depend on [c] alone and [c] depends on
    nothing, the plan for the request [[a; b]] is [[c; a; b]]: [c] is there
    once, before [a] and [b]. *)
Theorem diamond_dedup cfg test_tiers a b c depth :
  dict_get cfg "test_tiers" (VDict []) = Ok test_tiers →
  a ≠ b → a ≠ c → b ≠ c →
  tier_deps test_tiers (VStr a) = Ok [VStr c] →
  tier_deps test_tiers (VStr b) = Ok [VStr c] →
  tier_deps test_tiers (VStr c) = Ok [] →
  expand_dependencies (S (S depth)) cfg (VList [VStr a; VStr b]) = Ok [c; a; b].
Proof.
  intros Hcfg Hab Hac Hbc Ha Hb Hc.
  rewrite (expand_dependencies_unfold _ cfg test_tiers
             (VList [VStr a; VStr b]) [VStr a; VStr b] Hcfg eq_refl).
  assert (add_tier test_tiers (S depth) (VStr c) [] = Ok [c]) as Hc1.
  { rewrite add_tier_str, bool_decide_eq_false_2 by (by intros ?%elem_of_nil).
    by rewrite Hc. }
  assert (add_tier test_tiers (S depth) (VStr c) [c; a] = Ok [c; a]) as Hc2.
  { rewrite add_tier_str, bool_decide_eq_true_2; [done|]. set_solver. }
  rewrite for_each_cons, add_tier_str, bool_decide_eq_false_2
    by (by intros ?%elem_of_nil).
  rewrite Ha. cbn [bind]. rewrite for_each_cons, Hc1. cbn [for_each bind app].
  rewrite add_tier_str, bool_decide_eq_false_2 by set_solver.
  rewrite Hb. cbn [bind]. by rewrite for_each_cons, Hc2.
Qed.

Lemma diamond_dedup_witness :
  expand_dependencies 2 diamond_cfg (VList [VStr "a"; VStr "b"]) = Ok ["c"; "a"; "b"].
Proof.
  by apply (diamond_dedup diamond_cfg diamond_tiers "a" "b" "c" 0 eq_refl).
Defined.

Section Scenarios.

Variable sys_executable : string.
Variable yaml_installed : bool.
Variable World : Type.
Variable subprocess_run : list string → World → outcome * World.

(** All pass: when the plan is [[a; b]] and both invocations return 0, the
    process exits with status 0. *)
Theorem all_pass config combo depth (w : World) test_tiers a b status w' cmd_a cmd_b :
  resolve_plan yaml_installed config combo depth = Ok (test_tiers, [a; b]) →
  main sys_executable yaml_installed World subprocess_run config combo depth w =
    (status, [Invoked a cmd_a (Returned 0); Invoked b cmd_b (Returned 0)], w') →
  status = 0.
Proof.
  intros Hres Hmain.
  destruct (main_run sys_executable yaml_installed World subprocess_run
              _ _ _ w _ _ Hres) as (r & log0 & w0 & Hloop & Hmain').
  rewrite Hmain in Hmain'. injection Hmain' as -> <- <-.
  apply tier_loop_run in Hloop. apply exit_status_0.
  apply (loop_run_success _ _ _ _ _ _ Hloop).
  - intros t Ht. eapply ordered_ok_flag; [|exact Ht].
    by eapply resolve_plan_ordered.
  - split; [done|]. rewrite !executed_cons. simpl.
    repeat constructor; eexists _, _; reflexivity.
Qed.

(** The tiers are taken one after the other in the order of the plan: the
    events of a run belong, one each, to the tiers of a prefix of the plan. *)
Theorem events_follow_plan config combo depth (w : World) test_tiers plan
    status log w' :
  resolve_plan yaml_installed config combo depth = Ok (test_tiers, plan) →
  main sys_executable yaml_installed World subprocess_run config combo depth w =
    (status, log, w') →
  event_tier <$> log `prefix_of` plan.
Proof.
  intros Hres Hmain.
  destruct (main_run sys_executable yaml_installed World subprocess_run
              _ _ _ w _ _ Hres) as (r & log0 & w0 & Hloop & Hmain').
  rewrite Hmain in Hmain'. injection Hmain' as -> <- <-.
  apply tier_loop_run in Hloop. by eapply loop_run_tiers.
Qed.

(** An interruption does not end the run by itself: when the invocation of
    a tier that is not critical is interrupted, [run_tier] returns false and
    the loop goes on to the next tier of the plan; the process exits with
    status 1. *)
Theorem interrupted_tier_continues config combo depth (w : World) test_tiers plan
    status log w' i t cmd c :
  resolve_plan yaml_installed config combo depth = Ok (test_tiers, plan) →
  main sys_executable yaml_installed World subprocess_run config combo depth w =
    (status, log, w') →
  log !! i = Some (Invoked t cmd KeyboardInterrupt) →
  tier_flag test_tiers t "critical" false = Ok false →
  plan !! S i = Some c →
  status = 1 ∧ ∃ e, log !! S i = Some e ∧ processed sys_executable test_tiers c e.
Proof.
  intros Hres Hmain Hi Hcrit Hc.
  destruct (main_run sys_executable yaml_installed World subprocess_run
              _ _ _ w _ _ Hres) as (r & log0 & w0 & Hloop & Hmain').
  rewrite Hmain in Hmain'. injection Hmain' as -> <- <-.
  apply tier_loop_run in Hloop.
  destruct (ordered_ok_flag test_tiers plan c "default_enabled" true)
    as [en Hen]; [by eapply resolve_plan_ordered | by eapply list_elem_of_lookup_2 |].
  destruct (loop_run_continue _ _ _ _ _ _ _ _ _ _ c en Hloop Hi eq_refl Hcrit Hc Hen)
    as [Hr He].
  split; [by apply exit_status_1 | done].
Qed.

End Scenarios.

Lemma all_pass_witness :
  resolve_plan true (File (Some pair_cfg) None) "pair" 100 =
    Ok (soft_tiers, ["lint"; "unit"]) ∧
  (demo_main pair_cfg "pair" []).1.1 = 0.
Proof.
  split; [reflexivity|].
  apply (all_pass "python" true (list outcome) scripted
           (File (Some pair_cfg) None) "pair" 100%nat [] soft_tiers "lint" "unit" _ []
           ["python"; "-m"; "pytest"; "tests"] ["python"; "-m"; "pytest"; "tests"]);
    reflexivity.
Defined.

Lemma events_follow_plan_witness :
  event_tier <$> (demo_main chain_cfg "full" [Returned 0; Returned 2]).1.2
    `prefix_of` ["unit"; "integration"; "scenario"].
Proof.
  apply (events_follow_plan "python" true (list outcome) scripted
           (File (Some chain_cfg) None) "full" 100%nat [Returned 0; Returned 2]
           chain_tiers _ 1 _ []); reflexivity.
Defined.

Lemma interrupted_tier_continues_witness :
  demo_main soft_cfg "nightly" [Returned 0; KeyboardInterrupt] =
    (1,
     [Invoked "lint" ["python"; "-m"; "pytest"; "tests"] (Returned 0);
      Invoked "unit" ["python"; "-m"; "pytest"; "tests"] KeyboardInterrupt;
      Skipped "stress"],
     []) ∧
  ∃ e, [Invoked "lint" ["python"; "-m"; "pytest"; "tests"] (Returned 0);
        Invoked "unit" ["python"; "-m"; "pytest"; "tests"] KeyboardInterrupt;
        Skipped "stress"] !! 2%nat = Some e ∧
       processed "python" soft_tiers "stress" e.
Proof.
  split; [reflexivity|].
  apply (interrupted_tier_continues "python" true (list outcome) scripted
           (File (Some soft_cfg) None) "nightly" 100%nat [Returned 0; KeyboardInterrupt]
           soft_tiers ["lint"; "unit"; "stress"] 1 _ [] 1%nat "unit"
           ["python"; "-m"; "pytest"; "tests"] "stress"); reflexivity.
Defined.

(** * Further properties of the code *)

(** ** Dependency expansion *)

(** X5.  A result of [expand_dependencies] that is not RecursionError does
    not depend on the recursion limit: a higher limit gives the same plan or
    the same failure. *)
Theorem expand_dependencies_limit depth depth' cfg tiers r :
  expand_dependencies depth cfg tiers = r →
  r ≠ Raise RecursionError →
  (depth ≤ depth')%nat →
  expand_dependencies depth' cfg tiers = r.
Proof.
  unfold expand_dependencies. intros Hrun Hr Hle.
  destruct (dict_get cfg "test_tiers" (VDict [])) as [test_tiers|]; [|done].
  destruct (py_iter tiers) as [ts|]; [|done]. cbn [bind] in *.
  eapply for_each_mono; [|exact Hrun|done].
  intros x s r'. by apply add_tier_mono_le.
Qed.

Lemma expand_dependencies_limit_witness :
  expand_dependencies 50 chain_cfg (VList [VStr "scenario"]) =
    Ok ["unit"; "integration"; "scenario"] ∧
  expand_dependencies 50 ghost_cfg (VList [VStr "unit"]) =
    Raise (ConfigError (TierNotDefined (VStr "ghost"))).
Proof.
  split.
  - by apply (expand_dependencies_limit 4 50 chain_cfg (VList [VStr "scenario"]));
      [reflexivity | discriminate | lia].
  - by apply (expand_dependencies_limit 2 50 ghost_cfg (VList [VStr "unit"]));
      [reflexivity | discriminate | lia].
Defined.

Lemma ordered_ok_app_l test_tiers l1 l2 :
  ordered_ok test_tiers (l1 ++ l2) → ordered_ok test_tiers l1.
Proof.
  induction l2 as [|x l2 IH] using rev_ind.
  - by rewrite app_nil_r.
  - rewrite app_assoc. intros [Hok _]%ordered_ok_inv. by apply IH.
Qed.

(** A loop over tiers that are all in [ordered] already changes nothing. *)
Lemma for_each_present test_tiers depth deps o :
  (∀ d, d ∈ deps → ∃ s, d = VStr s ∧ s ∈ o) →
  for_each (add_tier test_tiers (S depth)) deps o = Ok o.
Proof.
  induction deps as [|d deps IH]; intros Hall; [done|].
  destruct (Hall d) as (s & -> & Hs); [by apply elem_of_cons; left|].
  rewrite for_each_cons, add_tier_str, bool_decide_eq_true_2 by done.
  apply IH. intros d' Hd'. apply Hall. by apply elem_of_cons; right.
Qed.

Lemma for_each_replan test_tiers depth l1 l2 :
  ordered_ok test_tiers (l1 ++ l2) →
  for_each (add_tier test_tiers (S (S depth))) (VStr <$> l2) l1 = Ok (l1 ++ l2).
Proof.
  revert l1. induction l2 as [|x l2 IH]; intros l1 Hok.
  - by rewrite app_nil_r.
  - rewrite fmap_cons, for_each_cons.
    replace (l1 ++ x :: l2) with ((l1 ++ [x]) ++ l2) in * by (by rewrite <- app_assoc).
    destruct (ordered_ok_inv _ _ _ (ordered_ok_app_l _ _ _ Hok))
      as (_ & Hx & deps & Hdeps & Hin).
    rewrite add_tier_str, bool_decide_eq_false_2 by done.
    rewrite Hdeps. cbn [bind]. rewrite for_each_present by done. cbn [bind].
    by apply IH.
Qed.

(** X21.  Above the number of keys of the tier map the recursion limit
    does not matter: two limits above it give the same plan or the same
    failure, so that RecursionError there is unbounded recursion. *)
Theorem expand_dependencies_limit_free depth depth' cfg test_tiers tiers :
  dict_get cfg "test_tiers" (VDict []) = Ok test_tiers →
  (length (tier_keys test_tiers) < depth)%nat →
  (length (tier_keys test_tiers) < depth')%nat →
  expand_dependencies depth cfg tiers = expand_dependencies depth' cfg tiers.
Proof.
  intros Hcfg Hdepth Hdepth'. unfold expand_dependencies. rewrite Hcfg.
  cbn [bind]. destruct (py_iter tiers) as [ts|e]; [|done]. cbn [bind].
  by apply for_each_limit_free.
Qed.

Lemma expand_dependencies_limit_free_witness :
  expand_dependencies 3 loop_cfg (VList [VStr "a"]) =
  expand_dependencies 1000 loop_cfg (VList [VStr "a"]).
Proof.
  apply (expand_dependencies_limit_free 3 1000 loop_cfg loop_tiers
           (VList [VStr "a"]) eq_refl); simpl; lia.
Defined.

(** X6.  Expanding a plan gives the plan back: when [expand_dependencies]
    returns a plan, the request for the names of that plan, in its order,
    returns the same plan at every recursion limit from 2 on. *)
Theorem expand_dependencies_idempotent depth depth' cfg tiers plan :
  expand_dependencies depth cfg tiers = Ok plan →
  (2 ≤ depth')%nat →
  expand_dependencies depth' cfg (VList (VStr <$> plan)) = Ok plan.
Proof.
  intros Hrun Hdepth.
  apply expand_dependencies_Ok in Hrun as (test_tiers & ts & Hcfg & _ & Hrun).
  apply for_each_plan in Hrun as [Hok _].
  rewrite (expand_dependencies_unfold depth' cfg test_tiers
             (VList (VStr <$> plan)) (VStr <$> plan) Hcfg eq_refl).
  destruct depth' as [|[|depth']]; [lia..|].
  by apply (for_each_replan test_tiers depth' []).
Qed.

Lemma expand_dependencies_idempotent_witness :
  expand_dependencies 2 chain_cfg (VList (VStr <$> ["unit"; "integration"; "scenario"])) =
    Ok ["unit"; "integration"; "scenario"].
Proof.
  apply (expand_dependencies_idempotent 4 2 chain_cfg
           (VList [VStr "scenario"; VStr "unit"])); [reflexivity | lia].
Defined.

(** X7.  A request list that is made longer keeps what it had: when the
    shorter request fails, the longer one fails the same way, and when both
    return a plan, the plan of the shorter request is the beginning of the
    plan of the longer one. *)
Theorem expand_dependencies_extend depth cfg ts more :
  (∀ e, expand_dependencies depth cfg (VList ts) = Raise e →
        expand_dependencies depth cfg (VList (ts ++ more)) = Raise e) ∧
  (∀ plan plan',
     expand_dependencies depth cfg (VList ts) = Ok plan →
     expand_dependencies depth cfg (VList (ts ++ more)) = Ok plan' →
     plan `prefix_of` plan' ∧
     ∀ x, x ∈ plan' → x ∈ plan ∨
       ∃ test_tiers, dict_get cfg "test_tiers" (VDict []) = Ok test_tiers ∧
                     reachable test_tiers more (VStr x)).
Proof.
  unfold expand_dependencies.
  destruct (dict_get cfg "test_tiers" (VDict [])) as [test_tiers|]; [|done].
  cbn [bind py_iter]. rewrite for_each_app. split.
  - by intros e ->.
  - intros plan plan' Hrun. rewrite Hrun. cbn [bind]. intros Hmore.
    apply for_each_plan in Hrun as [Hok _].
    split.
    + by destruct (for_each_ok _ _ _ _ _ Hok Hmore) as (_ & Hpre & _).
    + intros x Hx. destruct (for_each_new _ _ _ _ _ _ Hmore Hx); eauto.
Qed.

Lemma expand_dependencies_extend_witness :
  expand_dependencies 4 chain_cfg (VList ([VStr "unit"] ++ [VStr "scenario"])) =
    Ok ["unit"; "integration"; "scenario"] ∧
  ["unit"] `prefix_of` ["unit"; "integration"; "scenario"].
Proof.
  split; [reflexivity|].
  destruct (expand_dependencies_extend 4 chain_cfg [VStr "unit"] [VStr "scenario"])
    as [_ Hboth].
  by destruct (Hboth ["unit"] ["unit"; "integration"; "scenario"] eq_refl eq_refl).
Defined.

(** X8.  Asking also for a tier that the plan holds already changes
    nothing: the request with that name added at its end returns the same
    plan. *)
Theorem expand_dependencies_redundant depth cfg ts plan name :
  expand_dependencies depth cfg (VList ts) = Ok plan →
  name ∈ plan →
  expand_dependencies depth cfg (VList (ts ++ [VStr name])) = Ok plan.
Proof.
  unfold expand_dependencies.
  destruct (dict_get cfg "test_tiers" (VDict [])) as [test_tiers|]; [|done].
  cbn [bind py_iter]. rewrite for_each_app. intros Hrun Hname. rewrite Hrun.
  cbn [bind]. destruct depth as [|depth].
  - destruct ts; [|done]. injection Hrun as <-. by apply elem_of_nil in Hname.
  - by rewrite for_each_cons, add_tier_str, bool_decide_eq_true_2.
Qed.

Lemma expand_dependencies_redundant_witness :
  expand_dependencies 4 chain_cfg (VList ([VStr "scenario"] ++ [VStr "integration"])) =
    Ok ["unit"; "integration"; "scenario"].
Proof.
  apply expand_dependencies_redundant; [reflexivity | set_solver].
Defined.

Lemma dedup_from_ext seen seen' names :
  (∀ x, x ∈ seen ↔ x ∈ seen') → dedup_from seen names = dedup_from seen' names.
Proof.
  revert seen seen'. induction names as [|y names IH]; intros seen seen' Hext; [done|].
  simpl. rewrite (bool_decide_ext _ _ (Hext y)). case_bool_decide.
  - by apply IH.
  - f_equal. apply IH. intros x. rewrite !elem_of_cons. naive_solver.
Qed.

Lemma for_each_independent test_tiers depth names o :
  (∀ n, n ∈ names → tier_deps test_tiers (VStr n) = Ok []) →
  for_each (add_tier test_tiers (S depth)) (VStr <$> names) o =
    Ok (o ++ dedup_from o names).
Proof.
  revert o. induction names as [|x names IH]; intros o Hdeps.
  - by rewrite app_nil_r.
  - rewrite fmap_cons, for_each_cons, add_tier_str. cbn [dedup_from].
    assert (∀ n, n ∈ names → tier_deps test_tiers (VStr n) = Ok []) as Hrest.
    { intros n Hn. apply Hdeps. by apply elem_of_cons; right. }
    case_bool_decide as Hx.
    + by apply IH.
    + rewrite Hdeps by (by apply elem_of_cons; left). cbn [bind for_each app].
      rewrite IH, <- app_assoc by done. do 2 f_equal. simpl. f_equal.
      apply dedup_from_ext. intros y. set_solver.
Qed.

(** X9.  Tiers without dependencies are planned in the order they are asked
    for: when no requested tier has a dependency, the plan is the request
    list with every name kept where it comes first. *)
Theorem expand_dependencies_independent depth cfg test_tiers names :
  dict_get cfg "test_tiers" (VDict []) = Ok test_tiers →
  (∀ n, n ∈ names → tier_deps test_tiers (VStr n) = Ok []) →
  expand_dependencies (S depth) cfg (VList (VStr <$> names)) =
    Ok (remove_duplicates names).
Proof.
  intros Hcfg Hdeps.
  rewrite (expand_dependencies_unfold (S depth) cfg test_tiers
             (VList (VStr <$> names)) (VStr <$> names) Hcfg eq_refl).
  by rewrite for_each_independent.
Qed.

Lemma expand_dependencies_independent_witness :
  expand_dependencies 1 flat_cfg (VList (VStr <$> ["unit"; "docs"; "unit"; "lint"])) =
    Ok ["unit"; "docs"; "lint"].
Proof.
  apply (expand_dependencies_independent 0 flat_cfg flat_tiers
           ["unit"; "docs"; "unit"; "lint"] eq_refl).
  intros n Hn.
  repeat (apply elem_of_cons in Hn as [-> | Hn]; [reflexivity|]).
  by apply elem_of_nil in Hn.
Defined.

Lemma chars_letters s : chars s = VStr <$> letters s.
Proof. induction s as [|c s IH]; [done|]. simpl. by rewrite IH. Qed.

(** X10.  A [depends_on] written as a string is walked character by
    character: the one-letter strings are taken for tier names, so that the
    request for the tier ends in the "not defined" error of the first
    character when no tier has that name. *)
Theorem depends_on_string depth cfg items tier_cfg name c rest :
  dict_get cfg "test_tiers" (VDict []) = Ok (VDict items) →
  assoc name items = Some (VDict tier_cfg) →
  assoc "depends_on" tier_cfg = Some (VStr (String c rest)) →
  assoc (String c EmptyString) items = None →
  tier_deps (VDict items) (VStr name) = Ok (VStr <$> letters (String c rest)) ∧
  expand_dependencies (S (S depth)) cfg (VList [VStr name]) =
    Raise (ConfigError (TierNotDefined (VStr (String c EmptyString)))).
Proof.
  intros Hcfg Hname Hdeps Hc.
  assert (tier_deps (VDict items) (VStr name) = Ok (VStr <$> letters (String c rest)))
    as Htier.
  { cbn [tier_deps dict_get bind]. rewrite Hname. cbn [bind].
    destruct tier_cfg as [|kv tier_cfg]; [done|]. cbn [truthy negb].
    cbn [dict_get]. rewrite Hdeps. cbn [bind py_iter]. by rewrite chars_letters. }
  split; [done|].
  rewrite (expand_dependencies_unfold _ cfg (VDict items)
             (VList [VStr name]) [VStr name] Hcfg eq_refl).
  assert (name ≠ String c EmptyString) as Hne by congruence.
  rewrite for_each_cons, add_tier_str, bool_decide_eq_false_2
    by (by intros ?%elem_of_nil).
  rewrite Htier. cbn [bind letters fmap list_fmap].
  rewrite for_each_cons, add_tier_str, bool_decide_eq_false_2
    by (by intros ?%elem_of_nil).
  by rewrite tier_deps_absent.
Qed.

Lemma depends_on_string_witness :
  expand_dependencies 2 stringly_cfg (VList [VStr "integration"]) =
    Raise (ConfigError (TierNotDefined (VStr "u"))).
Proof.
  by destruct (depends_on_string 0 stringly_cfg _ _ "integration" (Ascii.ascii_of_nat 117) "nit"
                 eq_refl eq_refl eq_refl eq_refl).
Defined.

(** ** Combinations *)

Lemma assoc_None k items : assoc k items = None ↔ k ∉ items.*1.
Proof.
  induction items as [|[k' v] items IH]; simpl.
  - split; [by intros _ ?%elem_of_nil | done].
  - case_bool_decide as Hk.
    + subst. split; [done|]. intros Hnot. destruct Hnot. by apply elem_of_cons; left.
    + rewrite IH, not_elem_of_cons. naive_solver.
Qed.

(** X11.  Over a configuration whose [combinations] is a mapping,
    [collect_tiers_for_combo] returns the [tiers] of the entry of the
    combination, whatever that value is, exactly when the entry is a mapping
    with that key; it ends in the "unknown combination" error exactly when
    the combination is no key of the mapping; and a configuration without
    [combinations] knows no combination at all. *)
Theorem collect_tiers_for_combo_lookup cfg combos combo :
  dict_get cfg "combinations" (VDict []) = Ok (VDict combos) →
  (∀ tiers,
     collect_tiers_for_combo cfg combo = Ok tiers ↔
     ∃ entry, assoc combo combos = Some (VDict entry) ∧
              assoc "tiers" entry = Some tiers) ∧
  (∀ msg,
     collect_tiers_for_combo cfg combo = Raise (ConfigError msg) ↔
     (combo ∉ combos.*1) ∧ msg = UnknownCombination combo) ∧
  (∀ items, cfg = VDict items → assoc "combinations" items = None →
     collect_tiers_for_combo cfg combo =
       Raise (ConfigError (UnknownCombination combo))).
Proof.
  intros Hcombos. unfold collect_tiers_for_combo. rewrite Hcombos.
  cbn [bind]. unfold has_key. split_and!.
  - intros tiers. case_bool_decide as Hkey; cbn [negb].
    + destruct (assoc combo combos) as [entry|] eqn:Hentry;
        [|by apply assoc_None in Hentry].
      cbn [dict_item bind]. rewrite Hentry. cbn [bind].
      destruct entry as [| | | | |entry]; cbn [dict_item];
        try (split; [done | by intros (? & [= <-] & _)]).
      destruct (assoc "tiers" entry) as [v|] eqn:Hv.
      * split; [intros [= <-]; eauto|].
        intros (e' & [= <-] & He'). congruence.
      * split; [done | intros (e' & [= <-] & He'); congruence].
    + split; [done|]. intros (entry & Hentry & _).
      apply assoc_None in Hkey. congruence.
  - intros msg. case_bool_decide as Hkey; cbn [negb].
    + destruct (assoc combo combos) as [entry|] eqn:Hentry;
        [|by apply assoc_None in Hentry].
      cbn [dict_item bind]. rewrite Hentry. cbn [bind].
      split; [|by intros [Hnot _]].
      destruct entry as [| | | | |entry]; cbn [dict_item]; try done.
      by destruct (assoc "tiers" entry).
    + split; [by intros [= <-] | by intros [_ ->]].
  - intros items -> Hnone. cbn [dict_get] in Hcombos. rewrite Hnone in Hcombos.
    injection Hcombos as <-. by rewrite bool_decide_eq_false_2 by (by intros ?%elem_of_nil).
Qed.

Lemma collect_tiers_for_combo_lookup_witness :
  collect_tiers_for_combo chain_cfg "full" = Ok (VList [VStr "scenario"; VStr "unit"]) ∧
  collect_tiers_for_combo chain_cfg "nightly" =
    Raise (ConfigError (UnknownCombination "nightly")) ∧
  collect_tiers_for_combo flat_cfg "broken" = Raise Uncaught ∧
  collect_tiers_for_combo diamond_cfg "full" =
    Raise (ConfigError (UnknownCombination "full")).
Proof.
  destruct (collect_tiers_for_combo_lookup chain_cfg _ "full" eq_refl) as (Hok & _ & _).
  destruct (collect_tiers_for_combo_lookup chain_cfg _ "nightly" eq_refl)
    as (_ & Hunknown & _).
  destruct (collect_tiers_for_combo_lookup diamond_cfg [] "full" eq_refl)
    as (_ & _ & Hmissing).
  split_and!.
  - apply Hok. eexists. split; reflexivity.
  - apply Hunknown. split; [|done]. simpl. set_solver.
  - reflexivity.
  - by eapply Hmissing.
Defined.

(** ** The command of a tier *)

Lemma strings_of_fmap ss : strings_of (VStr <$> ss) = Ok ss.
Proof.
  induction ss as [|x ss IH]; [done|].
  rewrite fmap_cons. cbn [strings_of]. by rewrite IH.
Qed.

Lemma assoc_dict_item items k v : assoc k items = Some v → dict_item (VDict items) k = Ok v.
Proof. intros H. simpl. by rewrite H. Qed.

(** The command built from a [discovery] whose paths are strings, for a
    [markers_any] that is falsy, and for one that is truthy and yields the
    strings [ms] when it is iterated. *)
Lemma tier_command_built sys_executable test_tiers t tier discovery ps m :
  dict_item test_tiers t = Ok (VDict tier) →
  assoc "discovery" tier = Some (VDict discovery) →
  dict_get (VDict discovery) "paths" (VList [VStr "tests"]) = Ok (VList (VStr <$> ps)) →
  dict_get (VDict discovery) "markers_any" (VList []) = Ok m →
  (truthy m = false →
     tier_command sys_executable test_tiers t =
       Ok ([sys_executable; "-m"; "pytest"] ++ ps)) ∧
  (∀ ms, truthy m = true → py_iter m = Ok (VStr <$> ms) →
     tier_command sys_executable test_tiers t =
       Ok ([sys_executable; "-m"; "pytest"] ++ ps ++ ["-m"; String.concat " or " ms])).
Proof.
  intros Htier Hdisc Hpaths Hmarkers.
  unfold tier_command, build_pytest_cmd. rewrite Htier. cbn [bind].
  rewrite (assoc_dict_item _ _ _ Hdisc). cbn [bind].
  rewrite Hpaths. cbn [bind]. rewrite Hmarkers. cbn [bind list_add].
  split.
  - intros ->.
    change ([VStr sys_executable; VStr "-m"; VStr "pytest"] ++ (VStr <$> ps))
      with (VStr <$> ([sys_executable; "-m"; "pytest"] ++ ps)).
    apply strings_of_fmap.
  - intros ms -> Hiter. unfold str_join. rewrite Hiter. cbn [bind].
    rewrite strings_of_fmap. cbn [bind].
    replace (([VStr sys_executable; VStr "-m"; VStr "pytest"] ++ (VStr <$> ps)) ++
             [VStr "-m"; VStr (String.concat " or " ms)])
      with (VStr <$> ([sys_executable; "-m"; "pytest"] ++ ps ++
                      ["-m"; String.concat " or " ms])).
    + apply strings_of_fmap.
    + by rewrite !fmap_app, <- app_assoc.
Qed.

(** X12.  For a tier whose [discovery] lists strings as [paths] (or has no
    [paths], which stands for [tests]) and strings as [markers_any] (or has
    none), the command is the interpreter, [-m pytest], the paths in their
    order and, when there is a marker, [-m] with the markers joined by
    [ or ]; without markers no selector is passed. *)
Theorem tier_command_shape sys_executable test_tiers t tier discovery ps ms :
  dict_item test_tiers t = Ok (VDict tier) →
  assoc "discovery" tier = Some (VDict discovery) →
  dict_get (VDict discovery) "paths" (VList [VStr "tests"]) = Ok (VList (VStr <$> ps)) →
  dict_get (VDict discovery) "markers_any" (VList []) = Ok (VList (VStr <$> ms)) →
  tier_command sys_executable test_tiers t =
    Ok ([sys_executable; "-m"; "pytest"] ++ ps ++
        match ms with
        | [] => []
        | _ :: _ => ["-m"; String.concat " or " ms]
        end) ∧
  (assoc "paths" discovery = None → ps = ["tests"]) ∧
  (assoc "markers_any" discovery = None → ms = []).
Proof.
  intros Htier Hdisc Hpaths Hmarkers.
  destruct (tier_command_built sys_executable _ _ _ _ _ _ Htier Hdisc Hpaths Hmarkers)
    as [Hnone Hsome].
  split_and!.
  - destruct ms as [|m ms].
    + rewrite app_nil_r. by apply Hnone.
    + by apply Hsome.
  - intros Habsent. cbn [dict_get] in Hpaths. rewrite Habsent in Hpaths.
    injection Hpaths as Hps.
    destruct ps as [|p1 [|p2 ps]]; [done | | done]. by injection Hps as <-.
  - intros Habsent. cbn [dict_get] in Hmarkers. rewrite Habsent in Hmarkers.
    injection Hmarkers as Hms. by destruct ms.
Qed.

Lemma tier_command_shape_witness :
  tier_command "python" chain_tiers "integration" =
    Ok ["python"; "-m"; "pytest"; "tests"; "-m"; "integration or scenario"] ∧
  tier_command "python" chain_tiers "unit" = Ok ["python"; "-m"; "pytest"; "tests"].
Proof.
  split.
  - by destruct (tier_command_shape "python" chain_tiers "integration" _ _
                   ["tests"] ["integration"; "scenario"]
                   eq_refl eq_refl eq_refl eq_refl).
  - by destruct (tier_command_shape "python" chain_tiers "unit" _ _
                   ["tests"] [] eq_refl eq_refl eq_refl eq_refl).
Defined.

(** X13.  A [markers_any] written as a string is joined character by
    character: the selector passed to pytest is the letters of the string
    with [ or ] between them, and no failure tells of it. *)
Theorem markers_any_string sys_executable test_tiers t tier discovery ps c rest :
  dict_item test_tiers t = Ok (VDict tier) →
  assoc "discovery" tier = Some (VDict discovery) →
  dict_get (VDict discovery) "paths" (VList [VStr "tests"]) = Ok (VList (VStr <$> ps)) →
  assoc "markers_any" discovery = Some (VStr (String c rest)) →
  tier_command sys_executable test_tiers t =
    Ok ([sys_executable; "-m"; "pytest"] ++ ps ++
        ["-m"; String.concat " or " (letters (String c rest))]).
Proof.
  intros Htier Hdisc Hpaths Hmarkers.
  destruct (tier_command_built sys_executable test_tiers t tier discovery ps
              (VStr (String c rest)) Htier Hdisc Hpaths) as [_ Hsome].
  { cbn [dict_get]. by rewrite Hmarkers. }
  apply Hsome; [done|]. cbn [py_iter]. by rewrite chars_letters.
Qed.

Lemma markers_any_string_witness :
  tier_command "python" stringly_tiers "unit" =
    Ok ["python"; "-m"; "pytest"; "tests"; "more"; "-m"; "s or l or o or w"].
Proof.
  by apply (markers_any_string "python" stringly_tiers "unit" _ _ ["tests"; "more"]
              (Ascii.ascii_of_nat 115) "low" eq_refl eq_refl eq_refl eq_refl).
Defined.

(** ** The loop of [main] *)

Section MoreMain.

Variable sys_executable : string.
Variable yaml_installed : bool.
Variable World : Type.
Variable subprocess_run : list string → World → outcome * World.

(** What [main] leaves when it has resolved a plan: a run of the loop. *)
Lemma main_loop_run config combo depth (w : World) test_tiers plan status log w' :
  resolve_plan yaml_installed config combo depth = Ok (test_tiers, plan) →
  main sys_executable yaml_installed World subprocess_run config combo depth w =
    (status, log, w') →
  ∃ r, status = exit_status r ∧
       tier_loop sys_executable World subprocess_run test_tiers plan true w =
         (r, log, w') ∧
       loop_run sys_executable test_tiers plan true log r.
Proof.
  intros Hres Hmain.
  destruct (main_run sys_executable yaml_installed World subprocess_run
              _ _ _ w _ _ Hres) as (r & log0 & w0 & Hloop & Hmain').
  rewrite Hmain in Hmain'. injection Hmain' as -> <- <-.
  exists r. split_and!; [done..|]. by eapply tier_loop_run.
Qed.

(** X14.  A tier whose command cannot be built (for one, a tier without
    [discovery]) or whose program cannot be launched ends the run on the
    spot, critical or not: its event is the last of the log and the process
    exits with status 1. *)
Theorem launch_failure_ends_run config combo depth (w : World) test_tiers plan
    status log w' i e :
  resolve_plan yaml_installed config combo depth = Ok (test_tiers, plan) →
  main sys_executable yaml_installed World subprocess_run config combo depth w =
    (status, log, w') →
  log !! i = Some e →
  (∃ t, e = NotLaunched t) ∨ (∃ t cmd, e = Invoked t cmd LaunchError) →
  length log = S i ∧ status = 1.
Proof.
  intros Hres Hmain Hi Hcrash.
  destruct (main_loop_run _ _ _ _ _ _ _ _ _ Hres Hmain) as (r & -> & _ & Hrun).
  destruct (loop_run_crash _ _ _ _ _ _ _ _ Hrun Hi Hcrash) as (Hlen & x & ->).
  done.
Qed.

(** X15.  Every event of a run of [main] belongs to the tier at its place in
    the plan and tells how that tier is configured: a skipped tier has a
    falsy [default_enabled]; an invoked tier is enabled and was invoked with
    the command [build_pytest_cmd] builds for it; a tier that was not
    launched is enabled and its command cannot be built. *)
Theorem main_events_sound config combo depth (w : World) test_tiers plan
    status log w' i e :
  resolve_plan yaml_installed config combo depth = Ok (test_tiers, plan) →
  main sys_executable yaml_installed World subprocess_run config combo depth w =
    (status, log, w') →
  log !! i = Some e →
  plan !! i = Some (event_tier e) ∧ event_sound sys_executable test_tiers e.
Proof.
  intros Hres Hmain Hi.
  destruct (main_loop_run _ _ _ _ _ _ _ _ _ Hres Hmain) as (r & _ & _ & Hrun).
  by eapply loop_run_event.
Qed.

(** X16.  An exit status 0 means that the whole plan was gone through: the
    log has one event for each tier of the plan, in the order of the plan,
    and each is a skip or an invocation that returned 0. *)
Theorem exit_0_whole_plan config combo depth (w : World) test_tiers plan log w' :
  resolve_plan yaml_installed config combo depth = Ok (test_tiers, plan) →
  main sys_executable yaml_installed World subprocess_run config combo depth w =
    (0, log, w') →
  event_tier <$> log = plan ∧
  NoDup plan ∧
  ∀ e, e ∈ log → is_skipped e = true ∨ succeeded e.
Proof.
  intros Hres Hmain.
  destruct (main_loop_run _ _ _ _ _ _ _ _ _ Hres Hmain) as (r & Hr & _ & Hrun).
  symmetry in Hr. apply exit_status_0 in Hr as ->.
  pose proof (resolve_plan_ordered _ _ _ _ _ _ Hres) as Hok.
  split_and!.
  - by eapply loop_run_complete.
  - by eapply ordered_ok_NoDup.
  - intros e He.
    destruct (proj1 (loop_run_success _ _ _ _ _ _ Hrun
                       (λ t Ht, ordered_ok_flag _ _ t _ _ Hok Ht)) eq_refl)
      as [_ Hall].
    destruct (is_skipped e) eqn:Hskip; [by left|]. right.
    rewrite Forall_forall in Hall. apply Hall.
    unfold executed. by apply list_elem_of_filter.
Qed.

(** X17.  A plan of tiers none of which is enabled runs nothing: every tier
    is skipped, the world is left as it was and the process exits with
    status 0. *)
Theorem disabled_plan_runs_nothing config combo depth (w : World) test_tiers plan :
  resolve_plan yaml_installed config combo depth = Ok (test_tiers, plan) →
  (∀ t, t ∈ plan → tier_flag test_tiers t "default_enabled" true = Ok false) →
  main sys_executable yaml_installed World subprocess_run config combo depth w =
    (0, Skipped <$> plan, w).
Proof.
  intros Hres Hall. unfold main. rewrite Hres.
  by rewrite tier_loop_disabled.
Qed.

(** X18.  [main] only touches the requested tiers and their transitive
    dependencies, and it gets to a tier only after all the tiers it depends
    on: every dependency of the tier of an event has an event earlier in
    the log. *)
Theorem main_dependencies_first config combo depth (w : World) cfg requested ts
    test_tiers status log w' :
  load_codex_config yaml_installed config = Ok cfg →
  collect_tiers_for_combo cfg combo = Ok requested →
  py_iter requested = Ok ts →
  dict_get cfg "test_tiers" (VDict []) = Ok test_tiers →
  main sys_executable yaml_installed World subprocess_run config combo depth w =
    (status, log, w') →
  (∀ e, e ∈ log → reachable test_tiers ts (VStr (event_tier e))) ∧
  (∀ i e deps d,
     log !! i = Some e →
     tier_deps test_tiers (VStr (event_tier e)) = Ok deps → d ∈ deps →
     ∃ j e', (j < i)%nat ∧ log !! j = Some e' ∧ d = VStr (event_tier e')).
Proof.
  intros Hload Hreq Hts Hcfg Hmain.
  destruct (resolve_plan yaml_installed config combo depth) as [[tt plan]|e] eqn:Hres.
  2:{ rewrite (main_abort _ _ _ _ _ _ _ w _ Hres) in Hmain.
      injection Hmain as _ <- _. split; [by intros e' ?%elem_of_nil|].
      intros i e' deps d Hi. by rewrite lookup_nil in Hi. }
  destruct (main_loop_run _ _ _ _ _ _ _ _ _ Hres Hmain) as (r & _ & _ & Hrun).
  apply resolve_plan_Ok in Hres as (cfg' & requested' & Hload' & Hreq' & Hplan & Htt).
  rewrite Hload in Hload'. injection Hload' as <-.
  rewrite Hreq in Hreq'. injection Hreq' as <-.
  rewrite Hcfg in Htt. injection Htt as <-.
  rewrite (expand_dependencies_unfold _ _ _ _ _ Hcfg Hts) in Hplan.
  apply for_each_plan in Hplan as (_ & _ & _ & Honly & Hbefore).
  split.
  - intros e He. apply list_elem_of_lookup in He as [i Hi].
    destruct (loop_run_event _ _ _ _ _ _ _ _ Hrun Hi) as [Hplan _].
    apply Honly. by eapply list_elem_of_lookup_2.
  - intros i e deps d Hi Hdeps Hd.
    destruct (loop_run_event _ _ _ _ _ _ _ _ Hrun Hi) as [Hplan _].
    destruct (Hbefore _ _ _ _ Hplan Hdeps Hd) as (s & j & -> & Hj & Hs).
    destruct (log !! j) as [e'|] eqn:Hj'.
    + destruct (loop_run_event _ _ _ _ _ _ _ _ Hrun Hj') as [Hplan' _].
      exists j, e'. split_and!; [done..|]. congruence.
    + apply lookup_ge_None in Hj'. apply lookup_lt_Some in Hi. lia.
Qed.

(** X19.  The world [main] ends in is the world it started in after the
    invocations of the log, made one after the other in the order of the
    log with the outcomes the log records, and nothing else; a run that
    invokes no command leaves the world as it was. *)
Theorem main_replays config combo depth (w : World) status log w' :
  main sys_executable yaml_installed World subprocess_run config combo depth w =
    (status, log, w') →
  replays subprocess_run log w w' ∧
  ((∀ t, ¬ invoked t log) → w' = w).
Proof.
  intros Hmain.
  assert (replays subprocess_run log w w') as Hreplay.
  { unfold main in Hmain.
    destruct (resolve_plan yaml_installed config combo depth) as [[tt plan]|].
    - destruct (tier_loop sys_executable World subprocess_run tt plan true w)
        as [[r log0] w0] eqn:Hloop.
      apply tier_loop_replays in Hloop.
      by destruct r; injection Hmain as _ <- <-.
    - injection Hmain as _ <- <-. constructor. }
  split; [done|]. intros Hno. by eapply replays_nothing.
Qed.

(** X20.  A combination whose list of tiers is empty is accepted: [main]
    runs nothing and exits with status 0, at every recursion limit. *)
Theorem empty_combination config combo depth (w : World) cfg :
  load_codex_config yaml_installed config = Ok cfg →
  collect_tiers_for_combo cfg combo = Ok (VList []) →
  main sys_executable yaml_installed World subprocess_run config combo depth w =
    (0, [], w).
Proof.
  intros Hload Hreq. unfold main, resolve_plan, expand_dependencies.
  rewrite Hload. cbn [bind]. rewrite Hreq. cbn [bind].
  destruct cfg as [| | | | |items]; try done. cbn [dict_get].
  by destruct (assoc "test_tiers" items).
Qed.

End MoreMain.

Lemma launch_failure_ends_run_witness :
  length (demo_main undiscoverable_cfg "all" []).1.2 = 1%nat ∧
  (demo_main undiscoverable_cfg "all" []).1.1 = 1.
Proof.
  apply (launch_failure_ends_run "python" true (list outcome) scripted
           (File (Some undiscoverable_cfg) None) "all" 100%nat []
           undiscoverable_tiers ["unit"; "docs"] _ _ [] 0%nat (NotLaunched "unit"));
    [reflexivity | reflexivity | reflexivity | left; by exists "unit"].
Defined.

Lemma main_events_sound_witness :
  ["unit"; "integration"; "scenario"] !! 1%nat =
    Some (event_tier
            (Invoked "integration"
               ["python"; "-m"; "pytest"; "tests"; "-m"; "integration or scenario"]
               (Returned 2))) ∧
  event_sound "python" chain_tiers
    (Invoked "integration"
       ["python"; "-m"; "pytest"; "tests"; "-m"; "integration or scenario"]
       (Returned 2)).
Proof.
  apply (main_events_sound "python" true (list outcome) scripted
           (File (Some chain_cfg) None) "full" 100%nat [Returned 0; Returned 2]
           chain_tiers ["unit"; "integration"; "scenario"] 1
           [Invoked "unit" ["python"; "-m"; "pytest"; "tests"] (Returned 0);
            Invoked "integration"
              ["python"; "-m"; "pytest"; "tests"; "-m"; "integration or scenario"]
              (Returned 2)]
           [] 1%nat); reflexivity.
Defined.

Lemma exit_0_whole_plan_witness :
  event_tier <$> (demo_main pair_cfg "pair" []).1.2 = ["lint"; "unit"] ∧
  NoDup ["lint"; "unit"] ∧
  ∀ e, e ∈ (demo_main pair_cfg "pair" []).1.2 → is_skipped e = true ∨ succeeded e.
Proof.
  apply (exit_0_whole_plan "python" true (list outcome) scripted
           (File (Some pair_cfg) None) "pair" 100%nat [] soft_tiers
           ["lint"; "unit"] _ []); reflexivity.
Defined.

Lemma disabled_plan_runs_nothing_witness :
  demo_main disabled_cfg "heavy" [Returned 1] =
    (0, [Skipped "stress"; Skipped "soak"], [Returned 1]).
Proof.
  apply (disabled_plan_runs_nothing "python" true (list outcome) scripted
           (File (Some disabled_cfg) None) "heavy" 100%nat [Returned 1]
           disabled_tiers ["stress"; "soak"]); [reflexivity|].
  intros t [->|[->|[]%elem_of_nil]%elem_of_cons]%elem_of_cons; reflexivity.
Defined.

Lemma main_dependencies_first_witness :
  (∀ e, e ∈ (demo_main chain_cfg "full" []).1.2 →
        reachable chain_tiers [VStr "scenario"; VStr "unit"] (VStr (event_tier e))) ∧
  (∀ i e deps d,
     (demo_main chain_cfg "full" []).1.2 !! i = Some e →
     tier_deps chain_tiers (VStr (event_tier e)) = Ok deps → d ∈ deps →
     ∃ j e', (j < i)%nat ∧ (demo_main chain_cfg "full" []).1.2 !! j = Some e' ∧
             d = VStr (event_tier e')).
Proof.
  apply (main_dependencies_first "python" true (list outcome) scripted
           (File (Some chain_cfg) None) "full" 100%nat [] chain_cfg
           (VList [VStr "scenario"; VStr "unit"]) [VStr "scenario"; VStr "unit"]
           chain_tiers 0 _ []); reflexivity.
Defined.

Lemma main_replays_witness :
  replays scripted (demo_main soft_cfg "nightly" [Returned 0; KeyboardInterrupt]).1.2
    [Returned 0; KeyboardInterrupt] [] ∧
  ((∀ t, ¬ invoked t (demo_main soft_cfg "nightly" [Returned 0; KeyboardInterrupt]).1.2) →
   [] = [Returned 0; KeyboardInterrupt]).
Proof.
  apply (main_replays "python" true (list outcome) scripted
           (File (Some soft_cfg) None) "nightly" 100%nat
           [Returned 0; KeyboardInterrupt] 1); reflexivity.
Defined.

Lemma empty_combination_witness :
  demo_main flat_cfg "none" [Returned 1] = (0, [], [Returned 1]).
Proof.
  apply (empty_combination "python" true (list outcome) scripted
           (File (Some flat_cfg) None) "none" 100%nat [Returned 1] flat_cfg);
    reflexivity.
Defined.
